(** * matplotkit.taylor: the construction of a Taylor diagram

    A shallow embedding of [src/matplotkit/taylor.py].  The class
    [TaylorDiagram] computes, from a reference series and a frame of sample
    series, a tick structure, an RMS contour field and an ordered list of
    plotted points, and hands all of them to matplotlib.

    The numbers of the program are numpy/pandas floats.  The embedding is
    written once over an interface [Numeric] that lists the numeric
    operations the source calls (so every structural statement holds for any
    carrier, IEEE doubles included), and is then instantiated with the real
    numbers, where the arithmetic laws used by the numeric statements are
    available.  matplotlib is modelled by the ordered log of the drawing
    calls the source makes on the figure. *)

From Stdlib Require Import String Bool Arith Lia ZArith QArith.
From Stdlib Require Import Reals Lra Qreals.
From Stdlib Require Import List.
Import ListNotations.

Close Scope Q_scope.

Set Implicit Arguments.

(** ** Python values *)

(** What a Python call yields: a value, or a raised exception named by its
    class. *)
Inductive outcome (A : Type) : Type :=
| Return (a : A)
| Raise (exc : string).
Arguments Return {A} a.
Arguments Raise {A} exc.

(** Keyword arguments forwarded verbatim ([**self.pkwargs]). *)
Definition kwargs := list (string * string).

(** [x or default] / [x if x else default] on an optional list: [None] and
    the empty list are both falsy. *)
Definition truthy_or {A : Type} (x : option (list A)) (default : list A) : list A :=
  match x with
  | Some (y :: ys) => y :: ys
  | _ => default
  end.

(** [zip(a, b, c)]: stops at the shortest argument. *)
Definition zip3 {A B C : Type} (a : list A) (b : list B) (c : list C)
  : list (A * (B * C)) :=
  combine a (combine b c).

(** [l[1:]] *)
Definition slice_from_1 {A : Type} (l : list A) : list A := skipn 1 l.

(** [l * n] on lists: [n] concatenated copies. *)
Fixpoint list_repeat {A : Type} (l : list A) (n : nat) : list A :=
  match n with
  | O => []
  | S k => l ++ list_repeat l k
  end.

(** ** The numeric interface (numpy scalars, pandas statistics) *)

Class Numeric (num : Type) : Type := {
  num_eq_dec : forall x y : num, {x = y} + {x <> y};
  lit : Q -> num;                      (* a numeric literal of the source *)
  np_pi : num;                         (* np.pi *)
  add : num -> num -> num;
  sub : num -> num -> num;
  mul : num -> num -> num;
  div : num -> num -> num;
  pow_2 : num -> num;                  (* x ** 2 *)
  pow_half : num -> num;               (* x ** 0.5 *)
  np_arccos : num -> num;
  np_cos : num -> num;
  gt : num -> num -> bool;             (* x > y *)
  std : list num -> num;               (* Series.std() *)
  corr : list num -> list num -> num   (* Series.corr(other, method="pearson") *)
}.

Definition lit_nat {num} `{Numeric num} (n : nat) : num :=
  lit (inject_Z (Z.of_nat n)).

Section Diagram.

Context {num : Type} `{Numeric num}.

(** *** numpy helpers *)

(** [np.linspace(start, stop, n)]: [arange(0, n) * step + start] with
    [step = (stop - start) / (n - 1)], the last entry overwritten by
    [stop].  (For a zero step numpy multiplies in the other order; the value
    is the same number.) *)
Definition linspace (start stop : num) (n : nat) : list num :=
  let step := div (sub stop start) (lit_nat (n - 1)) in
  map (fun i =>
         if (i =? n - 1)%nat && (1 <? n)%nat then stop
         else add (mul (lit_nat i) step) start)
      (seq 0 n).

(** [np.meshgrid(x, y)]: two arrays of [len y] rows and [len x] columns,
    the first repeating [x] along the rows, the second [y] down the
    columns. *)
Definition meshgrid (x y : list num) : list (list num) * list (list num) :=
  (map (fun _ => x) y, map (fun yi => map (fun _ => yi) x) y).

(** Element-wise combination of two 2-D arrays of equal shape. *)
Definition map2 {A B C : Type} (f : A -> B -> C) (a : list A) (b : list B) : list C :=
  map (fun p => f (fst p) (snd p)) (combine a b).

Definition array2 {A B C : Type} (f : A -> B -> C)
  (a : list (list A)) (b : list (list B)) : list (list C) :=
  map2 (map2 f) a b.

(** The builtin [max(list)]: the first greatest item under [>]; on an
    empty list it raises [ValueError] (here [None]). *)
Definition py_max (l : list num) : option num :=
  match l with
  | [] => None
  | x :: xs => Some (fold_left (fun m y => if gt y m then y else m) xs x)
  end.

(** *** Python dictionaries keyed by numbers *)

Definition pydict (V : Type) := list (num * V).

Fixpoint dict_set {V : Type} (d : pydict V) (k : num) (v : V) : pydict V :=
  match d with
  | [] => [(k, v)]
  | (k', v') :: d' =>
      if num_eq_dec k' k then (k', v) :: d' else (k', v') :: dict_set d' k v
  end.

(** [dict(pairs)]: later pairs overwrite earlier ones of the same key. *)
Definition dict_of {V : Type} (pairs : list (num * V)) : pydict V :=
  fold_left (fun d kv => dict_set d (fst kv) (snd kv)) pairs [].

Fixpoint dict_get {V : Type} (d : pydict V) (k : num) : option V :=
  match d with
  | [] => None
  | (k', v') :: d' => if num_eq_dec k' k then Some v' else dict_get d' k
  end.

(** *** pandas values *)

(** A [pandas.Series] with the default positional index. *)
Record Series : Type := { name : string; values : list num }.

(** A [pandas.DataFrame] as the source uses it: its ordered [.columns] and
    the column access [samples[col]]. *)
Record DataFrame : Type := { columns : list string; getitem : string -> Series }.

(** The frame made of the given columns, in that order. *)
Definition frame_of (cols : list Series) : DataFrame :=
  {| columns := map name cols;
     getitem := fun col =>
       match find (fun s => String.eqb (name s) col) cols with
       | Some s => s
       | None => {| name := col; values := [] |}
       end |}.

(** *** matplotlib values *)

(** Text of a tick label: which formatting the source applied to which
    number ([str(c)], or ["%.1f" % s]). *)
Inductive ticklabel : Type :=
| PyStr (x : num)
| PyFormat (fmt : string) (x : num).

(** The marker artist returned by [ax.plot] for one point. *)
Record Line2D : Type := {
  xdata : num;
  ydata : num;
  marker : string;
  color : string;
  markersize : Z;
  alpha : num;
  linestyle : string;
  extra : kwargs;
  label : string;
  clip_on : bool
}.

Definition set_label (p : Line2D) (s : string) : Line2D :=
  {| xdata := xdata p; ydata := ydata p; marker := marker p; color := color p;
     markersize := markersize p; alpha := alpha p; linestyle := linestyle p;
     extra := extra p; label := s; clip_on := clip_on p |}.

Definition set_clip_on (p : Line2D) (b : bool) : Line2D :=
  {| xdata := xdata p; ydata := ydata p; marker := marker p; color := color p;
     markersize := markersize p; alpha := alpha p; linestyle := linestyle p;
     extra := extra p; label := label p; clip_on := b |}.

(** [GF.FixedLocator] / [GF.DictFormatter] pairs and the extremes given to
    [FA.GridHelperCurveLinear]. *)
Record GridHelper : Type := {
  extremes : num * num * num * num;
  grid_locator1 : list num;
  tick_formatter1 : pydict ticklabel;
  grid_locator2 : list num;
  tick_formatter2 : pydict ticklabel
}.

(** The [levels] argument of [contour]: explicit values, or a count. *)
Inductive contour_levels : Type :=
| LevelValues (l : list num)
| LevelCount (n : nat).

(** One drawing call on the figure. *)
Inductive draw_op : Type :=
| AxisOff
| AddAxes (rect : num * num * num * num) (gh : GridHelper)
| AxisArtist (side method arg : string)
| Grid (ls col : string)
| PlotCurve (t r : list num) (fmt : string)
| Contour (ts rs rms : list (list num)) (levels : contour_levels)
| Clabel (fmt : string) (fontsize : Z)
| PlotPoint (p : Line2D)
| SetXlim (xmax : num).

End Diagram.

Arguments Series num : clear implicits.
Arguments DataFrame num : clear implicits.
Arguments Line2D num : clear implicits.
Arguments GridHelper num : clear implicits.
Arguments draw_op num : clear implicits.
Arguments ticklabel num : clear implicits.
Arguments contour_levels num : clear implicits.
Arguments pydict num V : clear implicits.

(** ** Drawing with failure: the log of drawing calls and the outcome *)

Section Drawing.

Context {num : Type}.

(** A computation that draws on the figure and then returns or raises.
    What was drawn before an exception stays on the figure.  A drawing call
    is recorded and taken to succeed: what matplotlib itself rejects (an
    axis limit that is not finite, contour levels that do not increase, a
    keyword given twice) lies outside this model, which raises only where
    the source's own Python does. *)
Definition M (A : Type) : Type := list (draw_op num) * outcome A.

Definition ret {A : Type} (a : A) : M A := ([], Return a).

Definition raise {A : Type} (exc : string) : M A := ([], Raise exc).

Definition draw (op : draw_op num) : M unit := ([op], Return tt).

Definition bind {A B : Type} (m : M A) (f : A -> M B) : M B :=
  match m with
  | (ops, Raise exc) => (ops, Raise exc)
  | (ops, Return a) => let (ops', r) := f a in (ops ++ ops', r)
  end.

(** A [for] loop over [l] carrying the loop state [s]. *)
Fixpoint for_each {A S : Type} (body : S -> A -> M S) (l : list A) (s : S) : M S :=
  match l with
  | [] => ret s
  | x :: xs => bind (body s x) (for_each body xs)
  end.

(** [l[0]]: [IndexError] on an empty list. *)
Definition item0 {A : Type} (l : list A) : M A :=
  match l with
  | [] => raise "IndexError"
  | x :: _ => ret x
  end.

(** A [max(...)] call: [ValueError] on an empty sequence. *)
Definition max_or_raise (m : option num) : M num :=
  match m with
  | None => raise "ValueError"
  | Some x => ret x
  end.

Definition drawn {A : Type} (m : M A) : list (draw_op num) := fst m.
Definition result {A : Type} (m : M A) : outcome A := snd m.

End Drawing.

Arguments M num A : clear implicits.

Declare Scope draw_scope.
Delimit Scope draw_scope with draw.
Notation "x <- m ;; k" := (bind m (fun x => k))
  (at level 61, m at next level, right associativity) : draw_scope.
Notation "m ;;; k" := (bind m (fun _ => k))
  (at level 61, right associativity) : draw_scope.

(** ** The class [TaylorDiagram] *)

Section TaylorDiagram.

Context {num : Type} `{Numeric num}.

Local Open Scope string_scope.
Local Open Scope list_scope.
Local Open Scope draw_scope.

(** The default palettes of [__init__]. *)
Definition default_markers : list string :=
  list_repeat ["o"; "o"; "s"; "v"; "o"; "s"; "v"] 100.

Definition default_colors : list string :=
  ["tab:blue"; "tab:red"; "tab:red"; "tab:red";
   "tab:green"; "tab:green"; "tab:green";
   "#1abc9c"; "#2ecc71"; "#3498db"; "#9b59b6"; "#34495e"].

Definition default_scale : num := lit (12 # 10).
Definition default_ms : Z := 10%Z.

(** The attributes [__init__] assigns before it calls [step_up]. *)
Record Attrs : Type := {
  points : list (Line2D num);
  Normalize : bool;
  pkwargs : kwargs;
  markers : list string;
  colors : list string;
  ms : Z;
  ref : Series num;
  scale : num;
  samples : DataFrame num
}.

Definition append_point (self : Attrs) (p : Line2D num) : Attrs :=
  {| points := points self ++ [p]; Normalize := Normalize self;
     pkwargs := pkwargs self; markers := markers self; colors := colors self;
     ms := ms self; ref := ref self; scale := scale self;
     samples := samples self |}.

(** The object once [step_up] has run: the attributes above together with
    [_refstd], [stdmax], [Smax] and [refstd]. *)
Record TaylorDiagram : Type := {
  attrs :> Attrs;
  _refstd : num;
  stdmax : num;
  Smax : num;
  refstd : num
}.

Definition with_attrs (self : TaylorDiagram) (a : Attrs) : TaylorDiagram :=
  {| attrs := a; _refstd := _refstd self; stdmax := stdmax self;
     Smax := Smax self; refstd := refstd self |}.

(** [self.ax.plot(x, y, linestyle="", marker=..., color=..., markersize=...,
    alpha=0.5, **pkwargs)]: the artist as created, unlabelled and clipped.
    The extra keyword arguments are carried along, not interpreted. *)
Definition plot_marker (x y : num) (mk col : string) (size : Z) (kw : kwargs)
  : Line2D num :=
  {| xdata := x; ydata := y; marker := mk; color := col; markersize := size;
     alpha := lit (5 # 10); linestyle := ""; extra := kw; label := "";
     clip_on := true |}.

(** [calc_loc]: polar location of sample [y] against reference [x]. *)
Definition calc_loc (self : TaylorDiagram) (x y : Series num) : num * num :=
  let R := corr (values x) (values y) in
  let theta := np_arccos R in
  let r := std (values y) in
  (theta, if Normalize self then div r (_refstd self) else r).

(** The correlation levels of the angular axis. *)
Definition Rlocs : list num :=
  map lit [0; 2 # 10; 4 # 10; 6 # 10; 7 # 10; 8 # 10; 9 # 10; 95 # 100; 99 # 100; 1]%Q.

(** The RMS difference at radius [r] and angle [t]. *)
Definition rms_at (refstd0 r t : num) : num :=
  pow_half
    (sub (add (pow_2 refstd0) (pow_2 r))
         (mul (mul (mul (lit 2) refstd0) r) (np_cos t))).

(** The axis settings of lines 124-140, as calls on [ax.axis[side]]. *)
Definition axis_settings : list (draw_op num) :=
  [ AxisArtist "top" "set_axis_direction" "bottom";
    AxisArtist "top" "toggle" "ticklabels=True, label=True";
    AxisArtist "top" "major_ticklabels.set_axis_direction" "top";
    AxisArtist "top" "label.set_axis_direction" "top";
    AxisArtist "top" "label.set_text" "Correlation";
    AxisArtist "top" "major_ticklabels.set_pad" "8";
    AxisArtist "left" "set_axis_direction" "bottom";
    AxisArtist "left" "toggle" "ticklabels=False";
    AxisArtist "right" "set_axis_direction" "top";
    AxisArtist "right" "toggle" "ticklabels=True, label=True";
    AxisArtist "right" "label.set_text" "Standard deviation";
    AxisArtist "right" "major_ticklabels.set_axis_direction" "left";
    AxisArtist "right" "major_ticklabels.set_pad" "8";
    AxisArtist "bottom" "set_visible" "False" ].

Definition draw_all (ops : list (draw_op num)) : M num unit := (ops, Return tt).

(** [step_up]: the frame, the reference arc, the RMS contours and the
    reference point. *)
Definition step_up (self : Attrs) (ax : num * num * num * num)
  : M num TaylorDiagram :=
  draw AxisOff ;;;
  let Tlocs := map np_arccos Rlocs in
  let gl1 := Tlocs in
  let tf1 := dict_of (combine Tlocs (map PyStr Rlocs)) in
  let _refstd0 := std (values (ref self)) in
  stdmax0 <- max_or_raise
    (py_max (map (fun col => std (values (getitem (samples self) col)))
                 (columns (samples self)) ++ [_refstd0])) ;;
  let Smax0 := mul (if Normalize self then lit 1 else stdmax0) (scale self) in
  let refstd0 := if Normalize self then lit 1 else _refstd0 in
  let Slocs := linspace (lit 0) Smax0 4 in
  let gl2 := Slocs in
  let tf2 := dict_of (combine Slocs (map (PyFormat "%.1f") Slocs)) in
  let grid_helper :=
    {| extremes := (lit 0, div np_pi (lit 2), lit 0, Smax0);
       grid_locator1 := gl1; tick_formatter1 := tf1;
       grid_locator2 := gl2; tick_formatter2 := tf2 |} in
  draw (AddAxes ax grid_helper) ;;;
  draw_all axis_settings ;;;
  draw (Grid "--" "gray") ;;;
  let t := linspace (lit 0) (div np_pi (lit 2)) 50 in
  let r := map (fun _ => add (lit 0) refstd0) t in
  draw (PlotCurve t r "k--") ;;;
  let (rs, ts) := meshgrid (linspace (lit 0) Smax0 100)
                           (linspace (lit 0) (div np_pi (lit 2)) 100) in
  let rms := array2 (fun r0 t0 => rms_at refstd0 r0 t0) rs ts in
  draw (Contour ts rs rms
          (if Normalize self then LevelValues (linspace (lit 0) (scale self) 4)
           else LevelCount 4)) ;;;
  draw (Clabel "%.1f" 10) ;;;
  marker0 <- item0 (markers self) ;;
  color0 <- item0 (colors self) ;;
  let p := plot_marker (lit 0) refstd0 marker0 color0 (ms self) (pkwargs self) in
  let p := set_label p (name (ref self)) in
  let p := set_clip_on p false in
  draw (PlotPoint p) ;;;
  ret {| attrs := append_point self p; _refstd := _refstd0; stdmax := stdmax0;
         Smax := Smax0; refstd := refstd0 |}.

(** One turn of the loop of [plot_sample]; the loop state is the object and
    the list [stds]. *)
Definition plot_one (st : TaylorDiagram * list num)
  (it : string * (string * string)) : M num (TaylorDiagram * list num) :=
  let (self, stds) := st in
  let '(col, (marker0, color0)) := it in
  let (t, s) := calc_loc self (ref self) (getitem (samples self) col) in
  let p := plot_marker t s marker0 color0 (ms self) (pkwargs self) in
  let p := set_label p col in
  draw (PlotPoint p) ;;;
  ret (with_attrs self (append_point self p), stds ++ [s]).

(** [plot_sample]: the sample points, then the trimmed axis extent. *)
Definition plot_sample (self : TaylorDiagram) : M num TaylorDiagram :=
  st <- for_each plot_one
          (zip3 (columns (samples self))
                (slice_from_1 (markers self))
                (slice_from_1 (colors self)))
          (self, []) ;;
  let (self', stds) := st in
  xmax <- max_or_raise (py_max stds) ;;
  draw (SetXlim xmax) ;;;
  ret self'.

(** [TaylorDiagram(ax, ref, samples, Normalize, markers, colors, scale, ms,
    pkwargs)].  [ax] stands for the bounds of the axes passed in. *)
Definition __init__ (ax : num * num * num * num) (ref0 : Series num)
  (samples0 : DataFrame num) (Normalize0 : bool)
  (markers0 colors0 : option (list string)) (scale0 : num) (ms0 : Z)
  (pkwargs0 : option kwargs) : M num TaylorDiagram :=
  let self :=
    {| points := [];
       Normalize := Normalize0;
       pkwargs := truthy_or pkwargs0 [];
       markers := truthy_or markers0 default_markers;
       colors := truthy_or colors0 default_colors;
       ms := ms0;
       ref := ref0;
       scale := scale0;
       samples := samples0 |} in
  self1 <- step_up self ax ;;
  plot_sample self1.

End TaylorDiagram.

Arguments Attrs num : clear implicits.
Arguments TaylorDiagram num : clear implicits.

(** ** What the methods compute, in closed form *)

Section Closed_forms.

Context {num : Type} `{Numeric num}.

Local Open Scope string_scope.
Local Open Scope list_scope.

(** The list of standard deviations whose maximum is [stdmax]. *)
Definition all_stds (self : Attrs num) : list num :=
  map (fun col => std (values (getitem (samples self) col)))
      (columns (samples self)) ++ [std (values (ref self))].

(** The reference point as [step_up] leaves it. *)
Definition ref_point (self : Attrs num) (marker0 color0 : string) : Line2D num :=
  {| xdata := lit 0;
     ydata := if Normalize self then lit 1 else std (values (ref self));
     marker := marker0; color := color0; markersize := ms self;
     alpha := lit (5 # 10); linestyle := ""; extra := pkwargs self;
     label := name (ref self); clip_on := false |}.

(** The point of one sample as [plot_sample] leaves it. *)
Definition sample_point (self : TaylorDiagram num) (it : string * (string * string))
  : Line2D num :=
  let y := getitem (samples self) (fst it) in
  {| xdata := fst (calc_loc self (ref self) y);
     ydata := snd (calc_loc self (ref self) y);
     marker := fst (snd it); color := snd (snd it); markersize := ms self;
     alpha := lit (5 # 10); linestyle := ""; extra := pkwargs self;
     label := fst it; clip_on := true |}.

(** The triples the loop of [plot_sample] runs over. *)
Definition plotted (self : Attrs num) : list (string * (string * string)) :=
  zip3 (columns (samples self)) (slice_from_1 (markers self))
       (slice_from_1 (colors self)).

Definition extend_points (self : Attrs num) (ps : list (Line2D num)) : Attrs num :=
  {| points := points self ++ ps; Normalize := Normalize self;
     pkwargs := pkwargs self; markers := markers self; colors := colors self;
     ms := ms self; ref := ref self; scale := scale self;
     samples := samples self |}.

(** The grid helper and the contour call of [step_up], as functions of the
    radial bound. *)
Definition grid_of (Smax0 : num) : GridHelper num :=
  let Tlocs := map np_arccos Rlocs in
  let Slocs := linspace (lit 0) Smax0 4 in
  {| extremes := (lit 0, div np_pi (lit 2), lit 0, Smax0);
     grid_locator1 := Tlocs;
     tick_formatter1 := dict_of (combine Tlocs (map (@PyStr num) Rlocs));
     grid_locator2 := Slocs;
     tick_formatter2 := dict_of (combine Slocs (map (PyFormat "%.1f") Slocs)) |}.

Definition contour_of (self : Attrs num) (Smax0 refstd0 : num) : draw_op num :=
  let (rs, ts) := meshgrid (linspace (lit 0) Smax0 100)
                           (linspace (lit 0) (div np_pi (lit 2)) 100) in
  Contour ts rs (array2 (fun r0 t0 => rms_at refstd0 r0 t0) rs ts)
    (if Normalize self then LevelValues (linspace (lit 0) (scale self) 4)
     else LevelCount 4).

(** Everything [step_up] draws before it looks up [markers[0]]. *)
Definition frame_ops (self : Attrs num) (ax : num * num * num * num)
  (stdmax0 : num) : list (draw_op num) :=
  let Smax0 := mul (if Normalize self then lit 1 else stdmax0) (scale self) in
  let refstd0 := if Normalize self then lit 1 else std (values (ref self)) in
  let t := linspace (lit 0) (div np_pi (lit 2)) 50 in
  [AxisOff; AddAxes ax (grid_of Smax0)] ++ axis_settings ++
  [Grid "--" "gray";
   PlotCurve t (map (fun _ => add (lit 0) refstd0) t) "k--";
   contour_of self Smax0 refstd0;
   Clabel "%.1f" 10].

(** The marker artists among the drawing calls, in drawing order. *)
Fixpoint plotted_points (ops : list (draw_op num)) : list (Line2D num) :=
  match ops with
  | [] => []
  | PlotPoint p :: ops' => p :: plotted_points ops'
  | _ :: ops' => plotted_points ops'
  end.

(** The object [__init__] hands to [step_up]. *)
Definition init_attrs (ref0 : Series num) (samples0 : DataFrame num)
  (Normalize0 : bool) (markers0 colors0 : option (list string)) (scale0 : num)
  (ms0 : Z) (pkwargs0 : option kwargs) : Attrs num :=
  {| points := [];
     Normalize := Normalize0;
     pkwargs := truthy_or pkwargs0 [];
     markers := truthy_or markers0 default_markers;
     colors := truthy_or colors0 default_colors;
     ms := ms0;
     ref := ref0;
     scale := scale0;
     samples := samples0 |}.

(** The object [step_up] returns. *)
Definition stepped (self : Attrs num) (stdmax0 : num) (marker0 color0 : string)
  : TaylorDiagram num :=
  {| attrs := extend_points self [ref_point self marker0 color0];
     _refstd := std (values (ref self));
     stdmax := stdmax0;
     Smax := mul (if Normalize self then lit 1 else stdmax0) (scale self);
     refstd := if Normalize self then lit 1 else std (values (ref self)) |}.

End Closed_forms.

(** ** The carrier of real numbers *)

Open Scope R_scope.

Definition Rsum (l : list R) : R := fold_right Rplus 0 l.

Definition mean (l : list R) : R := Rsum l / INR (length l).

(** Sum of squared deviations from the mean. *)
Definition sq_dev (l : list R) : R :=
  Rsum (map (fun x => (x - mean l) ^ 2) l).

(** [Series.std()] as pandas documents it: the sample standard deviation,
    normalised by [n - 1].  pandas yields NaN for fewer than two entries;
    the real expression has no meaning there and nothing below relies on
    it. *)
Definition Series_std (l : list R) : R :=
  sqrt (sq_dev l / (INR (length l) - 1)).

(** [Series.corr(other, method="pearson")] as pandas documents it: the two
    series are aligned on their index (for positional indexes, the common
    prefix), and the Pearson coefficient of the aligned values is taken.
    pandas yields NaN when a variance is zero; as above. *)
Definition Series_corr (x y : list R) : R :=
  let pairs := combine x y in
  let xa := map fst pairs in
  let ya := map snd pairs in
  Rsum (map (fun p => (fst p - mean xa) * (snd p - mean ya)) pairs)
  / (sqrt (sq_dev xa) * sqrt (sq_dev ya)).

#[export] Instance R_numeric : Numeric R :=
  {| num_eq_dec := Req_dec_T;
     lit := Q2R;
     np_pi := PI;
     add := Rplus;
     sub := Rminus;
     mul := Rmult;
     div := Rdiv;
     pow_2 := fun x => x ^ 2;
     pow_half := sqrt;
     np_arccos := acos;
     np_cos := cos;
     gt := fun x y => if Rgt_dec x y then true else false;
     std := Series_std;
     corr := Series_corr |}.

(** The grid helper of the first [add_axes] call, and the radial bound
    [radius_max] it carries as the last of its extremes. *)
Fixpoint find_grid (ops : list (draw_op R)) : option (GridHelper R) :=
  match ops with
  | [] => None
  | AddAxes _ gh :: _ => Some gh
  | _ :: ops' => find_grid ops'
  end.

Definition radius_max (gh : GridHelper R) : R := snd (extremes gh).

(** The greatest of [r] and the entries of [l]. *)
Definition max_of (r : R) (l : list R) : R := fold_right Rmax r l.

(** The standard deviations of the sample columns, in column order. *)
Definition sample_stds (samples0 : DataFrame R) : list R :=
  map (fun col => Series_std (values (getitem samples0 col))) (columns samples0).

(** [self.stdmax], [self.Smax] and [self.refstd] as real numbers. *)
Definition stdmax_R (ref0 : Series R) (samples0 : DataFrame R) : R :=
  max_of (Series_std (values ref0)) (sample_stds samples0).

Definition Smax_R (normalize : bool) (scale0 : R) (ref0 : Series R)
  (samples0 : DataFrame R) : R :=
  (if normalize then 1 else stdmax_R ref0 samples0) * scale0.

Definition refstd_R (normalize : bool) (ref0 : Series R) : R :=
  if normalize then 1 else Series_std (values ref0).

(** The radial bound in the words of the specification:
    [scale * max(std(reference), std(sample_1), ..., std(sample_n))], or
    [scale * 1.0] under normalisation. *)
Definition radius_max_spec (normalize : bool) (scale0 : R) (ref0 : Series R)
  (samples0 : DataFrame R) : R :=
  if normalize then scale0 * 1
  else scale0 *
       max_of (Series_std (values ref0))
         (map (fun col => Series_std (values (getitem samples0 col)))
              (columns samples0)).

(** The correlation levels of the angular axis, in the words of the
    specification. *)
Definition correlation_levels : list R :=
  [0; 0.2; 0.4; 0.6; 0.7; 0.8; 0.9; 0.95; 0.99; 1].

(** *** Concrete inputs *)

(** The position of the axes handed to the constructor. *)
Definition ax_bounds : R * R * R * R := (0.125, 0.11, 0.775, 0.77).

Definition obs : Series R := {| name := "obs"; values := [0; 1; 2] |}.
Definition model_a : Series R := {| name := "a"; values := [0; 2; 4] |}.
Definition model_b : Series R := {| name := "b"; values := [1; 2; 4; 8] |}.
Definition model_c : Series R := {| name := "c"; values := [2; 1; 3] |}.
Definition model_d : Series R := {| name := "d"; values := [1; 5; 3] |}.

(** Twelve sample columns. *)
Definition twelve_models : DataFrame R :=
  frame_of
    (map (fun nm => {| name := nm; values := [0; 2; 4] |})
       ["m01"; "m02"; "m03"; "m04"; "m05"; "m06";
        "m07"; "m08"; "m09"; "m10"; "m11"; "m12"]%string).

Close Scope R_scope.

(** * Properties *)

(** ** The methods in closed form *)

Section Closed_form_facts.

Context {num : Type} `{Numeric num}.

Local Open Scope string_scope.
Local Open Scope list_scope.

Lemma py_max_snoc (l : list num) (x : num) :
  exists m, py_max (l ++ [x]) = Some m.
Proof.
  destruct l as [|y l]; simpl; eauto.
Qed.

Lemma all_stds_max (self : Attrs num) : exists m, py_max (all_stds self) = Some m.
Proof. apply py_max_snoc. Qed.

(** [step_up] on an object whose palettes are not empty. *)
Lemma step_up_run (self : Attrs num) ax stdmax0 marker0 ms' color0 cs' :
  py_max (all_stds self) = Some stdmax0 ->
  markers self = marker0 :: ms' ->
  colors self = color0 :: cs' ->
  step_up self ax =
    (frame_ops self ax stdmax0 ++ [PlotPoint (ref_point self marker0 color0)],
     Return {| attrs := extend_points self [ref_point self marker0 color0];
               _refstd := std (values (ref self));
               stdmax := stdmax0;
               Smax := mul (if Normalize self then lit 1 else stdmax0) (scale self);
               refstd := if Normalize self then lit 1 else std (values (ref self)) |}).
Proof.
  intros Hmax Hm Hc.
  unfold step_up, all_stds in *.
  rewrite Hmax, Hm, Hc.
  reflexivity.
Qed.

Lemma sample_point_with_attrs (self : TaylorDiagram num) (ps : list (Line2D num)) it :
  sample_point (with_attrs self (extend_points self ps)) it = sample_point self it.
Proof. reflexivity. Qed.

(** The loop of [plot_sample] never raises: it draws one point per triple
    and appends it to [points], and its radius to [stds]. *)
Lemma plot_loop_run (items : list (string * (string * string))) :
  forall (self : TaylorDiagram num) (ps : list (Line2D num)) (stds : list num),
    for_each plot_one items (with_attrs self (extend_points self ps), stds) =
      (map (fun it => PlotPoint (sample_point self it)) items,
       Return (with_attrs self
                 (extend_points self (ps ++ map (sample_point self) items)),
               stds ++ map (fun it => ydata (sample_point self it)) items)).
Proof.
  induction items as [|[col [mk cl]] items IH]; intros self ps stds.
  - simpl. unfold ret. now rewrite !app_nil_r.
  - cbn [for_each].
    assert (Hstep :
      plot_one (with_attrs self (extend_points self ps), stds) (col, (mk, cl)) =
        ([PlotPoint (sample_point self (col, (mk, cl)))],
         Return (with_attrs self
                   (extend_points self (ps ++ [sample_point self (col, (mk, cl))])),
                 stds ++ [ydata (sample_point self (col, (mk, cl)))]))).
    { unfold plot_one, with_attrs, extend_points, append_point, sample_point,
        calc_loc; cbn.
      now rewrite <- app_assoc. }
    rewrite Hstep. unfold bind. rewrite IH. cbn [map].
    now rewrite <- !app_assoc.
Qed.

Lemma with_attrs_id (self : TaylorDiagram num) :
  with_attrs self (extend_points self []) = self.
Proof.
  destruct self as [[] ? ? ? ?]; unfold with_attrs, extend_points; cbn.
  now rewrite app_nil_r.
Qed.

(** [plot_sample] in closed form. *)
Lemma plot_sample_run (self : TaylorDiagram num) :
  plot_sample self =
    let pts := map (sample_point self) (plotted self) in
    let stds := map (@ydata num) pts in
    match py_max stds with
    | None => (map (@PlotPoint num) pts, Raise "ValueError")
    | Some xmax =>
        (map (@PlotPoint num) pts ++ [SetXlim xmax],
         Return (with_attrs self (extend_points self pts)))
    end.
Proof.
  pose proof (plot_loop_run (plotted self) self [] []) as Hloop.
  rewrite with_attrs_id in Hloop. cbn [app] in Hloop.
  unfold plot_sample. fold (plotted self).
  rewrite Hloop. cbn [bind].
  rewrite !map_map.
  destruct (py_max _) as [xmax|]; cbn; rewrite ?app_nil_r; reflexivity.
Qed.

End Closed_form_facts.

(** ** List facts used below *)

Lemma nth_error_combine {X Y : Type} (a : list X) (b : list Y) :
  forall i,
    nth_error (combine a b) i =
      match nth_error a i, nth_error b i with
      | Some x, Some y => Some (x, y)
      | _, _ => None
      end.
Proof.
  revert b; induction a as [|x a IH]; intros b i.
  - now destruct i.
  - destruct b as [|y b], i as [|i]; cbn; try reflexivity.
    + now destruct (nth_error a i).
    + apply IH.
Qed.

Section List_facts.

Variables A B C : Type.

Lemma zip3_length (a : list A) (b : list B) (c : list C) :
  length (zip3 a b c) = Nat.min (length a) (Nat.min (length b) (length c)).
Proof.
  unfold zip3. now rewrite !length_combine.
Qed.

Lemma nth_error_zip3 (a : list A) (b : list B) (c : list C) (i : nat) :
  nth_error (zip3 a b c) i =
    match nth_error a i, nth_error b i, nth_error c i with
    | Some x, Some y, Some z => Some (x, (y, z))
    | _, _, _ => None
    end.
Proof.
  unfold zip3. rewrite !nth_error_combine.
  destruct (nth_error a i), (nth_error b i), (nth_error c i); reflexivity.
Qed.

Lemma nth_error_slice_from_1 (l : list A) (i : nat) :
  nth_error (slice_from_1 l) i = nth_error l (S i).
Proof. destruct l; [now destruct i | reflexivity]. Qed.

Lemma slice_from_1_length (l : list A) :
  length (slice_from_1 l) = length l - 1.
Proof. destruct l; cbn; lia. Qed.

Lemma map_fst_zip3 (a : list A) (b : list B) (c : list C) :
  map fst (zip3 a b c) = firstn (Nat.min (length b) (length c)) a.
Proof.
  unfold zip3. rewrite <- (length_combine b c).
  generalize (combine b c) as l.
  induction a as [|x a IH]; intros l.
  - now rewrite firstn_nil.
  - destruct l as [|y l]; cbn; [reflexivity|]. now rewrite IH.
Qed.

Lemma truthy_or_cons (x : option (list A)) (d : list A) :
  d <> [] -> exists y ys, truthy_or x d = y :: ys.
Proof.
  intros Hd. destruct x as [[|y ys]|]; cbn; eauto;
    destruct d; try congruence; eauto.
Qed.

Lemma list_repeat_length (l : list A) (n : nat) :
  length (list_repeat l n) = n * length l.
Proof.
  induction n as [|n IH]; cbn; [reflexivity|].
  rewrite length_app, IH. lia.
Qed.

End List_facts.

(** ** The constructor as a whole *)

Section Construction.

Context {num : Type} `{Numeric num}.

Local Open Scope string_scope.
Local Open Scope list_scope.

Lemma plotted_points_app (a b : list (draw_op num)) :
  plotted_points (a ++ b) = plotted_points a ++ plotted_points b.
Proof.
  induction a as [|[] a IH]; cbn; rewrite ?IH; reflexivity.
Qed.

Lemma plotted_points_map (ps : list (Line2D num)) :
  plotted_points (map (@PlotPoint num) ps) = ps.
Proof. induction ps as [|p ps IH]; cbn; now rewrite ?IH. Qed.

Lemma frame_ops_no_point (self : Attrs num) ax stdmax0 :
  plotted_points (frame_ops self ax stdmax0) = [].
Proof. reflexivity. Qed.

Lemma py_max_none (l : list num) : py_max l = None <-> l = [].
Proof. destruct l; cbn; split; congruence. Qed.

Lemma default_markers_length : length default_markers = 700.
Proof. unfold default_markers. now rewrite list_repeat_length. Qed.

Lemma default_colors_length : length default_colors = 12.
Proof. reflexivity. Qed.

(** [__init__] in closed form: [step_up] always runs to its end, then
    [plot_sample] plots the zipped samples and takes the maximum radius. *)
Lemma init_run ax ref0 samples0 Normalize0 markers0 colors0 scale0 ms0 pkwargs0 :
  let self := init_attrs ref0 samples0 Normalize0 markers0 colors0 scale0 ms0
                pkwargs0 in
  exists stdmax0 marker0 ms' color0 cs',
    py_max (all_stds self) = Some stdmax0 /\
    markers self = marker0 :: ms' /\
    colors self = color0 :: cs' /\
    let td := stepped self stdmax0 marker0 color0 in
    let pts := map (sample_point td) (plotted self) in
    __init__ ax ref0 samples0 Normalize0 markers0 colors0 scale0 ms0 pkwargs0 =
      match py_max (map (@ydata num) pts) with
      | None =>
          (frame_ops self ax stdmax0 ++
             [PlotPoint (ref_point self marker0 color0)] ++
             map (@PlotPoint num) pts,
           Raise "ValueError")
      | Some xmax =>
          (frame_ops self ax stdmax0 ++
             [PlotPoint (ref_point self marker0 color0)] ++
             map (@PlotPoint num) pts ++ [SetXlim xmax],
           Return (with_attrs td (extend_points td pts)))
      end.
Proof.
  intros self.
  destruct (all_stds_max self) as [stdmax0 Hmax].
  destruct (@truthy_or_cons string markers0 default_markers) as (marker0 & ms' & Hm).
  { intros E. pose proof default_markers_length as L. rewrite E in L. discriminate. }
  destruct (@truthy_or_cons string colors0 default_colors) as (color0 & cs' & Hc).
  { discriminate. }
  exists stdmax0, marker0, ms', color0, cs'.
  repeat split; try assumption.
  intros td pts.
  change (__init__ ax ref0 samples0 Normalize0 markers0 colors0 scale0 ms0 pkwargs0)
    with (bind (step_up self ax) plot_sample).
  rewrite (step_up_run self ax Hmax Hm Hc).
  fold (stepped self stdmax0 marker0 color0). fold td.
  unfold bind. rewrite plot_sample_run.
  change (plotted td) with (plotted self). fold pts.
  cbv zeta.
  destruct (py_max (map (@ydata num) pts)); rewrite <- ?app_assoc; reflexivity.
Qed.

End Construction.

Section Zip_facts.

Variables A B C : Type.




End Zip_facts.

(** ** Properties of the constructed diagram, for any numeric carrier *)

Section Diagram_properties.

Context {num : Type} `{Numeric num}.

Local Open Scope string_scope.
Local Open Scope list_scope.

Variables (ax : num * num * num * num) (ref0 : Series num)
  (samples0 : DataFrame num) (Normalize0 : bool)
  (markers0 colors0 : option (list string)) (scale0 : num) (ms0 : Z)
  (pkwargs0 : option kwargs).

(** The diagram under study, the object handed to [step_up], and the
    palettes in effect. *)
Local Abbreviation built :=
  (__init__ ax ref0 samples0 Normalize0 markers0 colors0 scale0 ms0 pkwargs0).
Local Abbreviation self0 :=
  (init_attrs ref0 samples0 Normalize0 markers0 colors0 scale0 ms0 pkwargs0).
Local Abbreviation mk := (truthy_or markers0 default_markers).
Local Abbreviation cl := (truthy_or colors0 default_colors).

(** The shape of every construction: the frame, the reference point, the
    zipped sample points; a [ValueError] exactly when no sample was
    plotted. *)
Lemma init_shape :
  exists stdmax0 marker0 color0,
    let td := stepped self0 stdmax0 marker0 color0 in
    let p0 := ref_point self0 marker0 color0 in
    let pts := map (sample_point td) (plotted self0) in
    nth_error mk 0 = Some marker0 /\
    nth_error cl 0 = Some color0 /\
    py_max (all_stds self0) = Some stdmax0 /\
    (exists rest, drawn built = frame_ops self0 ax stdmax0 ++ PlotPoint p0 :: rest) /\
    plotted_points (drawn built) = p0 :: pts /\
    (plotted self0 = [] ->
       built = (frame_ops self0 ax stdmax0 ++ [PlotPoint p0], Raise "ValueError")) /\
    (plotted self0 <> [] ->
       exists td' xmax, result built = Return td' /\ points td' = p0 :: pts /\
                        td' = with_attrs td (extend_points td pts) /\
                        py_max (map (@ydata num) pts) = Some xmax /\
                        drawn built =
                          frame_ops self0 ax stdmax0 ++ [PlotPoint p0] ++
                          map (@PlotPoint num) pts ++ [SetXlim xmax]).
Proof.
  destruct (init_run ax ref0 samples0 Normalize0 markers0 colors0 scale0 ms0
              pkwargs0) as (stdmax0 & marker0 & ms' & color0 & cs' & Hmax & Hm & Hc & Hrun).
  exists stdmax0, marker0, color0. intros td p0 pts.
  cbv zeta in Hrun. fold td p0 pts in Hrun.
  assert (Hmk : nth_error mk 0 = Some marker0).
  { change mk with (markers self0). now rewrite Hm. }
  assert (Hcl : nth_error cl 0 = Some color0).
  { change cl with (colors self0). now rewrite Hc. }
  repeat split; try assumption.
  - destruct (py_max (map (@ydata num) pts)); rewrite Hrun; cbn [drawn fst];
      eexists; reflexivity.
  - destruct (py_max (map (@ydata num) pts)); rewrite Hrun; cbn [drawn fst];
      rewrite !plotted_points_app, frame_ops_no_point; cbn [app plotted_points];
      rewrite ?plotted_points_app, plotted_points_map; cbn; rewrite ?app_nil_r;
      reflexivity.
  - intros Hnil. subst pts. rewrite Hnil in *. cbn in Hrun. rewrite Hrun.
    reflexivity.
  - intros Hne.
    destruct (py_max (map (@ydata num) pts)) as [xmax|] eqn:Hx.
    + exists (with_attrs td (extend_points td pts)), xmax.
      rewrite Hrun. repeat split.
    + apply py_max_none in Hx. apply map_eq_nil in Hx.
      subst pts. apply map_eq_nil in Hx. contradiction.
Qed.

Lemma plotted_length :
  length (plotted self0) =
    Nat.min (length (columns samples0))
            (Nat.min (length mk - 1) (length cl - 1)).
Proof.
  unfold plotted. rewrite zip3_length, !slice_from_1_length. reflexivity.
Qed.

Lemma plotted_nil_iff :
  plotted self0 = [] <->
  ~ (columns samples0 <> [] /\ 2 <= length mk /\ 2 <= length cl).
Proof.
  rewrite <- length_zero_iff_nil, plotted_length.
  destruct (columns samples0) as [|c cs]; cbn [length].
  - split; [intros _ [Hc _]; congruence | reflexivity].
  - split.
    + intros Hz (_ & Hm & Hc). lia.
    + intros Hn.
      destruct (Nat.eq_dec (Nat.min (S (length cs))
                  (Nat.min (length mk - 1) (length cl - 1))) 0) as [E|E];
        [exact E|].
      exfalso. apply Hn. split; [discriminate | lia].
Qed.

Lemma init_returns :
  plotted self0 <> [] -> exists td, result built = Return td.
Proof.
  intros Hne.
  destruct init_shape as (stdmax0 & marker0 & color0 & _ & _ & _ & _ & _ & _ & Hret).
  destruct (Hret Hne) as (td & xmax & Hres & _). now exists td.
Qed.

Lemma init_raises :
  plotted self0 = [] -> result built = Raise "ValueError".
Proof.
  intros Hnil.
  destruct init_shape as (stdmax0 & marker0 & color0 & _ & _ & _ & _ & _ & Hr & _).
  now rewrite (Hr Hnil).
Qed.

(** The length of the point list of every diagram that was built. *)
Lemma point_count (td : TaylorDiagram num) :
  result built = Return td ->
  length (points td) =
    1 + Nat.min (length (columns samples0))
                (Nat.min (length mk - 1) (length cl - 1)).
Proof.
  intros Hres.
  destruct init_shape as (stdmax0 & marker0 & color0 & _ & _ & _ & _ & _ & Hnil & Hne).
  destruct (plotted self0) as [|it its] eqn:Hp.
  - rewrite Hnil in Hres by reflexivity. discriminate.
  - destruct Hne as (td' & xmax & Hres' & Hpts & _); [discriminate|].
    rewrite Hres' in Hres. injection Hres as <-.
    rewrite Hpts. cbn [length]. rewrite length_map, <- Hp, plotted_length.
    reflexivity.
Qed.

(** C2 (as amended): with no more samples than either palette has entries
    after its first, whenever the constructor returns, the point list has
    [n + 1] elements, the reference first under its own name, then one point
    per sample in column order, sample [i] carrying [markers[i+1]] and
    [colors[i+1]]. *)
Theorem point_list_within_palette (td : TaylorDiagram num) :
  length (columns samples0) <= Nat.min (length mk) (length cl) - 1 ->
  result built = Return td ->
  length (points td) = length (columns samples0) + 1 /\
  map (@label num) (points td) = name ref0 :: columns samples0 /\
  forall i, i < length (columns samples0) ->
    exists p, nth_error (points td) (S i) = Some p /\
              nth_error (columns samples0) i = Some (label p) /\
              nth_error mk (S i) = Some (marker p) /\
              nth_error cl (S i) = Some (color p).
Proof.
  intros Hn2 Hret.
  destruct init_shape as (stdmax0 & marker0 & color0 & _ & _ & _ & _ & _ & Hnil & Hne).
  assert (Hlen : length (plotted self0) = length (columns samples0)).
  { rewrite plotted_length. lia. }
  destruct (plotted self0) as [|it0 its] eqn:Hplotted.
  { rewrite Hnil in Hret by reflexivity. discriminate. }
  destruct Hne as (td' & xmax & Hres & Hpts & _); [discriminate|].
  rewrite Hres in Hret. injection Hret as <-.
  rewrite <- Hplotted in Hpts, Hlen. clear Hplotted.
  rewrite Hpts.
  split; [cbn [length]; rewrite length_map, Hlen; lia|].
  split.
  - cbn [map]. f_equal. rewrite map_map. cbn [sample_point label].
    unfold plotted. rewrite map_fst_zip3, !slice_from_1_length.
    apply firstn_all2. cbn [samples self0 init_attrs markers colors]. fold mk cl. lia.
  - intros i Hi. cbn [nth_error]. rewrite nth_error_map.
    unfold plotted. rewrite nth_error_zip3, !nth_error_slice_from_1.
    cbn [samples self0 init_attrs markers colors]. fold mk cl.
    destruct (nth_error (columns samples0) i) as [c|] eqn:Ec;
      [|apply nth_error_None in Ec; lia].
    destruct (nth_error mk (S i)) as [m|] eqn:Em;
      [|apply nth_error_None in Em; lia].
    destruct (nth_error cl (S i)) as [k|] eqn:Ek;
      [|apply nth_error_None in Ek; lia].
    cbn [option_map]. eexists. split; [reflexivity|].
    split; [reflexivity | split; [exact Em | exact Ek]].
Qed.

(** C3 (as amended): no input is rejected as invalid.  Whatever the lengths
    of the series, [InvalidInput] is never raised, and the constructor
    begins by drawing: the original axes are switched off and the frame is
    added before anything else is done with the data. *)
Theorem no_input_validation :
  (exists gh rest, drawn built = AxisOff :: AddAxes ax gh :: rest) /\
  result built <> Raise "InvalidInput".
Proof.
  destruct init_shape as (stdmax0 & marker0 & color0 & _ & _ & _ & Hdr & _ & Hnil & Hne).
  split.
  - destruct Hdr as (rest & ->). unfold frame_ops. cbn [app]. eauto.
  - destruct (plotted self0) as [|it its] eqn:Hp.
    + rewrite Hnil by reflexivity. cbn. discriminate.
    + destruct Hne as (td' & xmax & -> & _); discriminate.
Qed.

(** C6: the reference point is the literal location [(0, refstd)], with
    [refstd] the literal [1] under normalisation and [std(ref)] otherwise.
    No correlation enters: the statement holds for every carrier and every
    [corr] and [np_arccos]. *)
Theorem reference_point_fixed :
  exists p rest,
    plotted_points (drawn built) = p :: rest /\
    xdata p = lit 0 /\
    ydata p = (if Normalize0 then lit 1 else std (values ref0)) /\
    label p = name ref0 /\
    nth_error mk 0 = Some (marker p) /\
    nth_error cl 0 = Some (color p) /\
    forall td, result built = Return td -> nth_error (points td) 0 = Some p.
Proof.
  destruct init_shape as (stdmax0 & marker0 & color0 & Hm & Hc & _ & _ & Hpp & Hnil & Hne).
  eexists _, _. split; [exact Hpp|]. repeat split; try assumption.
  intros td Hres.
  destruct (plotted self0) as [|it its] eqn:Hp.
  - rewrite Hnil in Hres by reflexivity. discriminate.
  - destruct Hne as (td' & xmax & Hres' & Hpts & _); [discriminate|].
    rewrite Hres' in Hres. injection Hres as <-. now rewrite Hpts.
Qed.


(** C10: with no sample column the constructor raises [ValueError] (the
    [max] of the empty [stds]), and it does so after the frame, the
    reference arc, the contours and the reference point were drawn: these
    calls are all of the drawing log. *)
Theorem empty_collection_fails_late :
  columns samples0 = [] ->
  exists stdmax0 p0 gh t r ts rs rms levels,
    built = (frame_ops self0 ax stdmax0 ++ [PlotPoint p0], Raise "ValueError") /\
    In (AddAxes ax gh) (drawn built) /\
    In (PlotCurve t r "k--") (drawn built) /\
    In (Contour ts rs rms levels) (drawn built) /\
    In (PlotPoint p0) (drawn built) /\
    label p0 = name ref0.
Proof.
  intros Hcols.
  destruct init_shape as (stdmax0 & marker0 & color0 & _ & _ & _ & _ & _ & Hnil & _).
  assert (Hp : plotted self0 = []).
  { unfold plotted. cbn [samples self0 init_attrs]. now rewrite Hcols. }
  specialize (Hnil Hp).
  exists stdmax0, (ref_point self0 marker0 color0).
  do 7 eexists. split; [exact Hnil|].
  rewrite Hnil. cbn [drawn fst]. unfold frame_ops, contour_of, meshgrid.
  repeat split.
  - apply in_or_app. left. right. left. reflexivity.
  - apply in_or_app. left. apply in_or_app. right. apply in_or_app. right.
    right. left. reflexivity.
  - apply in_or_app. left. apply in_or_app. right. apply in_or_app. right.
    right. right. left. reflexivity.
  - apply in_or_app. right. left. reflexivity.
Qed.

End Diagram_properties.

(** ** Dictionaries and grids, for any numeric carrier *)

Section Dict_and_grid_facts.

Context {num : Type} `{Numeric num}.

Lemma dict_get_set {V : Type} (d : pydict num V) (k k' : num) (v : V) :
  dict_get (dict_set d k v) k' =
    if num_eq_dec k k' then Some v else dict_get d k'.
Proof.
  induction d as [|[k0 v0] d IH]; cbn.
  - reflexivity.
  - destruct (num_eq_dec k0 k) as [E|E]; cbn.
    + subst k0. destruct (num_eq_dec k k'); reflexivity.
    + rewrite IH.
      destruct (num_eq_dec k0 k'), (num_eq_dec k k'); try reflexivity.
      congruence.
Qed.

(** Looking up [k] in [dict(pairs)] finds the value of the last pair whose
    key is [k]. *)
Lemma dict_get_fold {V : Type} (ps : list (num * V)) :
  forall (d : pydict num V) (k : num),
    dict_get (fold_left (fun d kv => dict_set d (fst kv) (snd kv)) ps d) k =
      fold_left (fun acc kv => if num_eq_dec (fst kv) k then Some (snd kv) else acc)
                ps (dict_get d k).
Proof.
  induction ps as [|[k0 v0] ps IH]; intros d k; cbn [fold_left]; [reflexivity|].
  rewrite IH, dict_get_set. reflexivity.
Qed.

Lemma last_value_absent {V : Type} (f : num -> V) (ks : list num) (k : num) :
  forall acc, ~ In k ks ->
    fold_left (fun acc kv => if num_eq_dec (fst kv) k then Some (snd kv) else acc)
              (combine ks (map f ks)) acc = acc.
Proof.
  induction ks as [|x ks IH]; intros acc Hn; cbn; [reflexivity|].
  destruct (num_eq_dec x k) as [E|E].
  - exfalso. apply Hn. now left.
  - apply IH. intros Hin. apply Hn. now right.
Qed.

Lemma last_value_present {V : Type} (f : num -> V) (ks : list num) (k : num) :
  forall acc, In k ks ->
    fold_left (fun acc kv => if num_eq_dec (fst kv) k then Some (snd kv) else acc)
              (combine ks (map f ks)) acc = Some (f k).
Proof.
  induction ks as [|x ks IH]; intros acc Hin; [contradiction|].
  cbn [map combine fold_left fst snd].
  destruct (in_dec num_eq_dec k ks) as [Hk|Hk].
  - now apply IH.
  - rewrite last_value_absent by assumption.
    destruct Hin as [->|Hin]; [|contradiction].
    destruct (num_eq_dec k k); congruence.
Qed.

(** A dictionary built from keys and a function of the keys maps each of
    its keys to that function's value, repeated keys or not. *)
Lemma dict_of_functional {V : Type} (f : num -> V) (ks : list num) (k : num) :
  In k ks -> dict_get (dict_of (combine ks (map f ks))) k = Some (f k).
Proof.
  intros Hin. unfold dict_of. rewrite dict_get_fold.
  now apply last_value_present.
Qed.

Lemma map2_const_r {A B C : Type} (f : A -> B -> C) (x : list A) (b : B) :
  map2 f x (map (fun _ => b) x) = map (fun a => f a b) x.
Proof.
  unfold map2. induction x as [|a x IH]; cbn; [reflexivity|].
  now rewrite IH.
Qed.

(** A function evaluated on a mesh: row [i] holds its values along [x] at
    the [i]-th entry of [y]. *)
Lemma array2_meshgrid {C : Type} (f : num -> num -> C) (x y : list num) :
  array2 f (fst (meshgrid x y)) (snd (meshgrid x y)) =
    map (fun yi => map (fun xj => f xj yi) x) y.
Proof.
  unfold array2, meshgrid. cbn [fst snd]. unfold map2 at 1.
  induction y as [|yi y IH]; cbn; [reflexivity|].
  rewrite IH. f_equal. apply map2_const_r.
Qed.

End Dict_and_grid_facts.

(** ** The carrier of real numbers: literals and maxima *)

Local Open Scope R_scope.

Lemma lit_0 : lit 0%Q = 0.
Proof. cbn. unfold Q2R. cbn. lra. Qed.

Lemma lit_1 : lit 1%Q = 1.
Proof. cbn. unfold Q2R. cbn. lra. Qed.

Lemma lit_2 : lit 2%Q = 2.
Proof. cbn. unfold Q2R. cbn. lra. Qed.

Lemma lit_nat_INR (n : nat) : lit_nat n = INR n.
Proof.
  unfold lit_nat. cbn [lit R_numeric]. unfold Q2R. cbn [Qnum Qden inject_Z].
  rewrite <- INR_IZR_INZ. lra.
Qed.

Lemma gt_Rmax (m y : R) :
  (if gt y m then y else m) = Rmax m y.
Proof.
  cbn [gt R_numeric]. unfold Rmax.
  destruct (Rgt_dec y m), (Rle_dec m y); lra.
Qed.

Lemma fold_left_Rmax (l : list R) (a : R) :
  fold_left (fun m y => if gt y m then y else m) l a = fold_left Rmax l a.
Proof.
  revert a; induction l as [|x l IH]; intros a; cbn [fold_left]; [reflexivity|].
  now rewrite gt_Rmax, IH.
Qed.

Lemma max_of_push (l : list R) (a x : R) :
  max_of (Rmax a x) l = Rmax x (max_of a l).
Proof.
  induction l as [|y l IH]; cbn.
  - apply Rmax_comm.
  - fold (max_of (Rmax a x) l). rewrite IH. fold (max_of a l).
    rewrite !Rmax_assoc. f_equal. apply Rmax_comm.
Qed.

Lemma fold_left_max_of (l : list R) (a : R) :
  fold_left Rmax l a = max_of a l.
Proof.
  revert a; induction l as [|x l IH]; intros a; cbn [fold_left]; [reflexivity|].
  rewrite IH, max_of_push. reflexivity.
Qed.

(** Python's [max] of the standard deviations, reference last, is the
    greatest of them. *)
Lemma py_max_snoc_R (l : list R) (r : R) :
  py_max (l ++ [r]) = Some (max_of r l).
Proof.
  destruct l as [|x l]; [reflexivity|].
  cbn [app py_max]. f_equal.
  rewrite fold_left_Rmax, fold_left_app. cbn [fold_left].
  rewrite fold_left_max_of.
  change (max_of r (x :: l)) with (Rmax x (max_of r l)).
  rewrite (Rmax_comm (max_of x l) r).
  rewrite <- (max_of_push l x r), <- (max_of_push l r x).
  f_equal. apply Rmax_comm.
Qed.

Lemma max_of_ge_init (r : R) (l : list R) : r <= max_of r l.
Proof.
  induction l as [|x l IH]; cbn; [lra|].
  fold (max_of r l). apply Rle_trans with (1 := IH), Rmax_r.
Qed.

Lemma max_of_ge_In (r : R) (l : list R) (x : R) : In x l -> x <= max_of r l.
Proof.
  induction l as [|y l IH]; cbn; [tauto|].
  fold (max_of r l). intros [->|Hin].
  - apply Rmax_l.
  - apply Rle_trans with (1 := IH Hin), Rmax_r.
Qed.

(** ** Properties of the constructed diagram over the reals *)

Section Real_diagram.

Local Open Scope string_scope.
Local Open Scope list_scope.
Local Open Scope R_scope.

Variables (ax : R * R * R * R) (ref0 : Series R) (samples0 : DataFrame R)
  (Normalize0 : bool) (markers0 colors0 : option (list string)) (scale0 : R)
  (ms0 : Z) (pkwargs0 : option kwargs).

Local Abbreviation built :=
  (__init__ ax ref0 samples0 Normalize0 markers0 colors0 scale0 ms0 pkwargs0).
Local Abbreviation self0 :=
  (init_attrs ref0 samples0 Normalize0 markers0 colors0 scale0 ms0 pkwargs0).
Local Abbreviation stdmax_r := (stdmax_R ref0 samples0).
Local Abbreviation Smax_r := (Smax_R Normalize0 scale0 ref0 samples0).
Local Abbreviation refstd_r := (refstd_R Normalize0 ref0).

Lemma real_frame :
  exists marker0 color0 rest,
    drawn built =
      frame_ops self0 ax stdmax_r ++
      PlotPoint (ref_point self0 marker0 color0) :: rest /\
    find_grid (drawn built) = Some (grid_of (mul (if Normalize0 then lit 1 else stdmax_r) scale0)) /\
    forall td, result built = Return td ->
      Smax td = mul (if Normalize0 then lit 1 else stdmax_r) scale0 /\
      refstd td = (if Normalize0 then lit 1 else Series_std (values ref0)) /\
      _refstd td = Series_std (values ref0) /\
      stdmax td = stdmax_r.
Proof.
  destruct (init_shape ax ref0 samples0 Normalize0 markers0 colors0 scale0 ms0
              pkwargs0)
    as (stdmax0 & marker0 & color0 & _ & _ & Hmax & (rest & Hdr) & _ & Hnil & Hne).
  assert (Hs : stdmax0 = stdmax_r).
  { unfold all_stds in Hmax. cbn [samples ref self0 init_attrs] in Hmax.
    change (@std R R_numeric) with Series_std in Hmax.
    rewrite py_max_snoc_R in Hmax. now injection Hmax as <-. }
  subst stdmax0.
  exists marker0, color0, rest. split; [exact Hdr|]. split.
  - rewrite Hdr. reflexivity.
  - intros td Hres.
    destruct (plotted self0) as [|it its] eqn:Hp.
    + rewrite Hnil in Hres by reflexivity. discriminate.
    + destruct Hne as (td' & xmax & Hres' & _ & Htd & _); [discriminate|].
      rewrite Hres' in Hres. injection Hres as <-. rewrite Htd.
      repeat split.
Qed.

(** C5: the radial bound handed to the grid helper (and kept as [Smax]) is
    [scale * max(std(ref), std(sample_1), ..., std(sample_n))] when
    [Normalize] is false and [scale * 1.0] when it is true. *)
Theorem radial_bound_formula :
  exists gh,
    find_grid (drawn built) = Some gh /\
    radius_max gh = radius_max_spec Normalize0 scale0 ref0 samples0 /\
    forall td, result built = Return td -> Smax td = radius_max gh.
Proof.
  destruct real_frame as (marker0 & color0 & rest & _ & Hgrid & Htd).
  eexists. split; [exact Hgrid|]. split.
  - unfold radius_max, radius_max_spec, grid_of. cbn [extremes snd mul R_numeric].
    unfold stdmax_R, sample_stds.
    destruct Normalize0; [change (Q2R 1) with (lit 1%Q); rewrite lit_1|]; ring.
  - intros td Hres. destruct (Htd td Hres) as (-> & _). reflexivity.
Qed.

(** C4 (as amended): without normalisation and for a scale that is not
    negative, the radial bound is at least [scale * std(ref)] and at least
    [scale * std(sample)] for every sample column. *)
Theorem radial_bound_covers_stds :
  Normalize0 = false ->
  0 <= scale0 ->
  exists gh,
    find_grid (drawn built) = Some gh /\
    scale0 * Series_std (values ref0) <= radius_max gh /\
    forall col, In col (columns samples0) ->
      scale0 * Series_std (values (getitem samples0 col)) <= radius_max gh.
Proof.
  intros HN Hs.
  destruct real_frame as (marker0 & color0 & rest & _ & Hgrid & _).
  eexists. split; [exact Hgrid|].
  unfold radius_max, grid_of. cbn [extremes snd mul R_numeric].
  rewrite HN. split.
  - rewrite Rmult_comm. apply Rmult_le_compat_r; [exact Hs|].
    apply max_of_ge_init.
  - intros col Hin. rewrite Rmult_comm. apply Rmult_le_compat_r; [exact Hs|].
    apply max_of_ge_In. unfold sample_stds.
    apply (in_map (fun c => Series_std (values (getitem samples0 c)))), Hin.
Qed.

(** C1: every sample point sits at the angle [arccos] of the Pearson
    correlation of the reference and the sample, and at the radius
    [std(sample)], divided by [std(reference)] when [Normalize] is set; a
    correlation of 1 gives the angle 0 and a correlation of 0 the angle
    [pi / 2]. *)
Theorem sample_point_location (i : nat) (p : Line2D R) :
  nth_error (plotted_points (drawn built)) (S i) = Some p ->
  exists col,
    nth_error (columns samples0) i = Some col /\
    label p = col /\
    let y := values (getitem samples0 col) in
    let c := Series_corr (values ref0) y in
    xdata p = acos c /\
    ydata p = (if Normalize0
               then Series_std y / Series_std (values ref0)
               else Series_std y) /\
    (c = 1 -> xdata p = 0) /\
    (c = 0 -> xdata p = PI / 2).
Proof.
  intros Hp.
  destruct (init_shape ax ref0 samples0 Normalize0 markers0 colors0 scale0 ms0
              pkwargs0)
    as (stdmax0 & marker0 & color0 & _ & _ & _ & _ & Hpp & _).
  rewrite Hpp in Hp. cbn [nth_error] in Hp.
  rewrite nth_error_map in Hp.
  destruct (nth_error (plotted self0) i) as [[col [m c]]|] eqn:Hit;
    [|discriminate].
  cbn [option_map] in Hp. injection Hp as <-.
  unfold plotted in Hit. rewrite nth_error_zip3 in Hit.
  cbn [samples self0 init_attrs] in Hit.
  destruct (nth_error (columns samples0) i) as [col'|]; [|discriminate].
  destruct (nth_error _ i); [|discriminate].
  destruct (nth_error _ i); [|discriminate].
  injection Hit as -> _ _.
  exists col. split; [reflexivity|]. split; [reflexivity|].
  cbv zeta.
  match goal with
  | |- ?x = acos ?c /\ _ => assert (Hx : x = acos c) by reflexivity
  end.
  split; [exact Hx|]. split; [reflexivity|].
  split; intros Hc; rewrite Hx, Hc; [apply acos_1 | apply acos_0].
Qed.

Lemma Rlocs_levels : @Rlocs R R_numeric = correlation_levels.
Proof.
  unfold Rlocs, correlation_levels. cbn [map lit R_numeric].
  repeat (apply f_equal2; [unfold Q2R; cbn; lra|]). reflexivity.
Qed.

Lemma levels_in_range (c : R) : In c correlation_levels -> -1 <= c <= 1.
Proof.
  unfold correlation_levels. cbn [In].
  intros Hin. repeat (destruct Hin as [<-|Hin]; [lra|]). contradiction.
Qed.

(** Over the reals [np.linspace(0, b, n)] is the regular subdivision
    [i * (b / (n - 1))], [i = 0 .. n - 1], of the interval from 0 to [b]. *)
Lemma linspace_R (b : R) (n : nat) :
  (1 < n)%nat ->
  linspace (lit 0%Q) b n = map (fun i => INR i * (b / INR (n - 1))) (seq 0 n).
Proof.
  intros Hn. unfold linspace. apply map_ext_in. intros i Hi.
  apply in_seq in Hi. rewrite !lit_nat_INR, lit_0.
  cbn [add sub mul div R_numeric].
  assert (Hpos : INR (n - 1) <> 0).
  { apply not_0_INR. lia. }
  destruct (Nat.eqb_spec i (n - 1)) as [->|Hne]; cbn [andb].
  - destruct (Nat.ltb_spec 1 n); [|lia]. field. exact Hpos.
  - field. exact Hpos.
Qed.

(** C7: the angular ticks are [arccos c] for the ten fixed correlation
    levels, each labelled with [str c]; the radial ticks are the four
    evenly spaced values from 0 to the radial bound, each labelled with its
    ["%.1f"] rendering. *)
Theorem axis_ticks :
  exists gh,
    find_grid (drawn built) = Some gh /\
    grid_locator1 gh = map acos correlation_levels /\
    (forall c, In c correlation_levels ->
       dict_get (tick_formatter1 gh) (acos c) = Some (PyStr c)) /\
    grid_locator2 gh =
      [0; radius_max gh / 3; 2 * (radius_max gh / 3); radius_max gh] /\
    (forall s, In s (grid_locator2 gh) ->
       dict_get (tick_formatter2 gh) s = Some (PyFormat "%.1f" s)).
Proof.
  destruct real_frame as (marker0 & color0 & rest & _ & Hgrid & _).
  eexists. split; [exact Hgrid|].
  unfold grid_of, radius_max.
  cbn [grid_locator1 tick_formatter1 grid_locator2 tick_formatter2 extremes snd].
  change (@np_arccos R R_numeric) with acos.
  rewrite Rlocs_levels.
  split; [reflexivity|]. split; [|split].
  - intros c Hc.
    assert (Hvals :
      map (@PyStr R) correlation_levels =
        map (fun t => PyStr (cos t)) (map acos correlation_levels)).
    { rewrite map_map. apply map_ext_in. intros a Ha.
      now rewrite cos_acos by now apply levels_in_range. }
    rewrite Hvals, dict_of_functional by now apply in_map.
    now rewrite cos_acos by now apply levels_in_range.
  - rewrite linspace_R by lia. cbn [seq map Nat.sub INR].
    repeat (apply f_equal2; [field|]). reflexivity.
  - intros s Hs. now apply dict_of_functional.
Qed.

Lemma rms_at_R (a r t : R) :
  rms_at a r t = sqrt (a ^ 2 + r ^ 2 - 2 * a * r * cos t).
Proof.
  unfold rms_at. cbn [pow_half pow_2 sub add mul np_cos R_numeric].
  change (Q2R 2) with (lit 2%Q). now rewrite lit_2.
Qed.

(** The RMS difference of the reference with itself. *)
Lemma rms_at_reference (a : R) : rms_at a a 0 = 0.
Proof.
  rewrite rms_at_R, cos_0.
  replace (a ^ 2 + a ^ 2 - 2 * a * a * 1) with 0 by ring.
  apply sqrt_0.
Qed.

(** C8: the contoured field is the law-of-cosines RMS difference from the
    reference radius, evaluated on the 100 x 100 regular grid of radii
    [j * (Smax / 99)] and angles [i * ((pi / 2) / 99)], and it vanishes at
    angle 0 and the reference radius. *)
Theorem rms_field :
  let r := fun j => INR j * (Smax_r / INR 99) in
  let t := fun i => INR i * (PI / 2 / INR 99) in
  exists ts rs rms levels,
    In (Contour ts rs rms levels) (drawn built) /\
    rs = map (fun _ => map r (seq 0 100)) (seq 0 100) /\
    ts = map (fun i => map (fun _ => t i) (seq 0 100)) (seq 0 100) /\
    rms = map (fun i =>
                 map (fun j =>
                        sqrt (refstd_r ^ 2 + r j ^ 2
                              - 2 * refstd_r * r j * cos (t i)))
                     (seq 0 100))
              (seq 0 100) /\
    rms_at refstd_r refstd_r 0 = 0.
Proof.
  intros r t.
  destruct real_frame as (marker0 & color0 & rest & Hdr & _ & _).
  set (Sm := mul (if Normalize0 then lit 1%Q else stdmax_r) scale0).
  set (rf := if Normalize0 then lit 1%Q else Series_std (values ref0)).
  assert (HSm : Sm = Smax_r).
  { unfold Sm, Smax_r. now rewrite lit_1. }
  assert (Hrf : rf = refstd_r).
  { unfold rf, refstd_r. now rewrite lit_1. }
  set (x := linspace (lit 0%Q) Sm 100).
  set (y := linspace (lit 0%Q) (div np_pi (lit 2%Q)) 100).
  assert (Hx : x = map r (seq 0 100)).
  { unfold x. rewrite linspace_R by lia. now rewrite HSm. }
  assert (Hy : y = map t (seq 0 100)).
  { unfold y. rewrite linspace_R by lia. cbn [div np_pi R_numeric].
    now rewrite lit_2. }
  exists (snd (meshgrid x y)), (fst (meshgrid x y)),
    (array2 (fun r0 t0 => rms_at rf r0 t0) (fst (meshgrid x y)) (snd (meshgrid x y))),
    (if Normalize0 then LevelValues (linspace (lit 0%Q) scale0 4) else LevelCount 4).
  split; [|split; [|split; [|split]]].
  - rewrite Hdr. apply in_or_app. left. unfold frame_ops.
    apply in_or_app. right. apply in_or_app. right.
    right. right. left. reflexivity.
  - unfold meshgrid. cbn [fst]. rewrite Hx, Hy, map_map. reflexivity.
  - unfold meshgrid. cbn [snd]. rewrite Hx, Hy, !map_map.
    apply map_ext. intros i. now rewrite map_map.
  - rewrite array2_meshgrid, Hx, Hy, map_map.
    apply map_ext. intros i. rewrite map_map.
    apply map_ext. intros j. now rewrite rms_at_R, Hrf.
  - apply rms_at_reference.
Qed.

End Real_diagram.

(** ** Concrete diagrams *)

Lemma std_obs : Series_std (values obs) = 1.
Proof.
  unfold Series_std, sq_dev, mean, Rsum. cbn [obs values map fold_right length INR].
  replace ((_ + _) / _) with 1 by field.
  apply sqrt_1.
Qed.

Lemma std_model_a : Series_std (values model_a) = 2.
Proof.
  unfold Series_std, sq_dev, mean, Rsum.
  cbn [model_a values map fold_right length INR].
  replace ((_ + _) / _) with (2 * 2) by field.
  apply sqrt_square. lra.
Qed.

(** The same series twice correlates to 1. *)
Lemma corr_model_a_itself : Series_corr (values model_a) (values model_a) = 1.
Proof.
  unfold Series_corr, sq_dev, mean, Rsum.
  cbn [model_a values combine map fold_right length INR fst snd].
  rewrite sqrt_sqrt.
  - field.
  - match goal with |- 0 <= ?e => replace e with 8 by field end. lra.
Qed.

(** C2, counterexample: twelve samples under the default palettes give a
    point list of twelve elements (the reference and eleven samples), not
    thirteen. *)
Lemma point_count_counterexample :
  let d := __init__ ax_bounds obs twelve_models false None None default_scale
             default_ms None in
  length (columns twelve_models) = 12%nat /\
  exists td, result d = Return td /\
             length (points td) = 12%nat /\
             length (points td) <> (12 + 1)%nat.
Proof.
  intros d. split; [reflexivity|].
  destruct (init_returns ax_bounds obs twelve_models false None None
              default_scale default_ms None) as (td & Hres).
  { discriminate. }
  exists td. split; [exact Hres|].
  pose proof (point_count ax_bounds obs twelve_models false None None
                default_scale default_ms None Hres) as Hlen.
  cbn [truthy_or] in Hlen.
  rewrite default_markers_length, default_colors_length in Hlen.
  change (length (columns twelve_models)) with 12%nat in Hlen.
  cbn in Hlen. rewrite Hlen. split; [reflexivity | discriminate].
Qed.

(** C2, an instance: three samples under the default palettes. *)
Lemma point_list_within_palette_witness :
  exists td,
    result (__init__ ax_bounds obs (frame_of [model_a; model_c; model_d]) false
              None None default_scale default_ms None) = Return td /\
    length (points td) = 4%nat /\
    map (@label R) (points td) = ["obs"; "a"; "c"; "d"]%string.
Proof.
  destruct (init_returns ax_bounds obs (frame_of [model_a; model_c; model_d])
              false None None default_scale default_ms None) as (td & Hres).
  { discriminate. }
  exists td. split; [exact Hres|].
  destruct (point_list_within_palette ax_bounds obs
              (frame_of [model_a; model_c; model_d]) false None None
              default_scale default_ms None (td := td))
    as (Hlen & Hlab & _).
  - vm_compute. apply le_S, le_S, le_S, le_S, le_S, le_S, le_S, le_S, le_n.
  - exact Hres.
  - split; [exact Hlen | exact Hlab].
Defined.

(** C3, counterexample: a sample of four entries against a reference of
    three is accepted; the diagram is drawn and returned. *)
Lemma length_mismatch_counterexample :
  let d := __init__ ax_bounds obs (frame_of [model_b]) false None None
             default_scale default_ms None in
  length (values obs) <> length (values (getitem (frame_of [model_b]) "b")) /\
  (exists td, result d = Return td) /\
  result d <> Raise "InvalidInput" /\
  drawn d <> [].
Proof.
  intros d.
  destruct (init_returns ax_bounds obs (frame_of [model_b]) false None None
              default_scale default_ms None) as (td & Hres).
  { discriminate. }
  fold d in Hres.
  split; [discriminate|]. split; [now exists td|].
  split; [rewrite Hres; discriminate|].
  destruct (init_shape ax_bounds obs (frame_of [model_b]) false None None
              default_scale default_ms None)
    as (? & ? & ? & _ & _ & _ & (rest & Hdr) & _).
  fold d in Hdr. rewrite Hdr. discriminate.
Qed.

(** C4, counterexample: under normalisation the radial bound is the scale
    itself, here 1.2, below [scale * std(a) = 2.4]. *)
Lemma normalized_bound_counterexample :
  let d := __init__ ax_bounds obs (frame_of [model_a]) true None None
             default_scale default_ms None in
  exists gh,
    find_grid (drawn d) = Some gh /\
    radius_max gh < default_scale * Series_std (values model_a).
Proof.
  intros d.
  destruct (real_frame ax_bounds obs (frame_of [model_a]) true None None
              default_scale default_ms None)
    as (marker0 & color0 & rest & _ & Hgrid & _).
  eexists. split; [exact Hgrid|].
  unfold radius_max, grid_of. cbn [extremes snd mul R_numeric].
  rewrite std_model_a, lit_1.
  unfold default_scale. cbn [lit R_numeric]. unfold Q2R. cbn. lra.
Qed.

(** A negative scale turns the bound around even without normalisation. *)
Lemma negative_scale_bound_example :
  let d := __init__ ax_bounds obs (frame_of [model_a]) false None None (-1)
             default_ms None in
  exists gh,
    find_grid (drawn d) = Some gh /\
    radius_max gh < -1 * Series_std (values obs).
Proof.
  intros d.
  destruct (real_frame ax_bounds obs (frame_of [model_a]) false None None (-1)
              default_ms None)
    as (marker0 & color0 & rest & _ & Hgrid & _).
  eexists. split; [exact Hgrid|].
  unfold radius_max, grid_of. cbn [extremes snd mul R_numeric].
  assert (Hm : stdmax_R obs (frame_of [model_a]) = Rmax 2 1).
  { unfold stdmax_R, sample_stds, max_of.
    change (columns (frame_of [model_a])) with ["a"%string].
    cbn [map fold_right].
    change (getitem (frame_of [model_a]) "a") with model_a.
    now rewrite std_model_a, std_obs. }
  rewrite Hm, std_obs.
  unfold Rmax. destruct (Rle_dec 2 1); lra.
Qed.

(** C4, an instance: the three-entry reference and one sample, not
    normalised, scale 1.2. *)
Lemma radial_bound_covers_stds_witness :
  exists gh,
    find_grid (drawn (__init__ ax_bounds obs (frame_of [model_a]) false None
                        None default_scale default_ms None)) = Some gh /\
    default_scale * Series_std (values obs) <= radius_max gh.
Proof.
  destruct (radial_bound_covers_stds ax_bounds obs (frame_of [model_a])
              (Normalize0 := false) None None (scale0 := default_scale)
              default_ms None)
    as (gh & Hgrid & Href & _).
  - reflexivity.
  - unfold default_scale. cbn [lit R_numeric]. unfold Q2R. cbn. lra.
  - exists gh. split; [exact Hgrid | exact Href].
Defined.

(** C1, an instance: the sample [a] against the reference [obs]. *)
Lemma sample_point_location_witness :
  exists p,
    nth_error (plotted_points
                 (drawn (__init__ ax_bounds obs (frame_of [model_a]) true None
                           None default_scale default_ms None))) 1 = Some p /\
    xdata p = acos (Series_corr (values obs) (values model_a)) /\
    ydata p = Series_std (values model_a) / Series_std (values obs).
Proof.
  eexists. split; [reflexivity|].
  edestruct (sample_point_location ax_bounds obs (frame_of [model_a]) true None
               None default_scale default_ms None 0)
    as (col & Hcol & _ & Hx & Hy & _).
  { reflexivity. }
  injection Hcol as <-. split; [exact Hx | exact Hy].
Defined.


(** C10, an instance: a frame without columns. *)
Lemma empty_collection_fails_late_witness :
  let d := __init__ ax_bounds obs (frame_of []) false None None default_scale
             default_ms None in
  result d = Raise "ValueError" /\
  exists p0, plotted_points (drawn d) = [p0] /\ label p0 = "obs"%string.
Proof.
  intros d.
  destruct (empty_collection_fails_late ax_bounds obs (frame_of []) false None
              None default_scale default_ms None eq_refl)
    as (stdmax0 & p0 & gh & t & r & ts & rs & rms & levels & Hrun & _ & _ & _ & _ & Hlab).
  fold d in Hrun. rewrite Hrun. split; [reflexivity|].
  exists p0. split; [|exact Hlab].
  cbn [drawn fst]. rewrite plotted_points_app, frame_ops_no_point. reflexivity.
Defined.

(** ** Further properties of the constructor, for any numeric carrier *)

Section Marker_properties.

Context {num : Type} `{Numeric num}.

Local Open Scope string_scope.
Local Open Scope list_scope.

Variables (ax : num * num * num * num) (ref0 : Series num)
  (samples0 : DataFrame num) (Normalize0 : bool)
  (markers0 colors0 : option (list string)) (scale0 : num) (ms0 : Z)
  (pkwargs0 : option kwargs).

Local Abbreviation built :=
  (__init__ ax ref0 samples0 Normalize0 markers0 colors0 scale0 ms0 pkwargs0).
Local Abbreviation self0 :=
  (init_attrs ref0 samples0 Normalize0 markers0 colors0 scale0 ms0 pkwargs0).

(** A sample point reads [Normalize], [ref], [samples], [ms] and [pkwargs]
    only: not the scale, the palettes' first entries or [stdmax]. *)
Lemma sample_point_reads (a b : Attrs num) (s s' : num) (m c m' c' : string) it :
  Normalize a = Normalize b -> ref a = ref b -> samples a = samples b ->
  ms a = ms b -> pkwargs a = pkwargs b ->
  sample_point (stepped a s m c) it = sample_point (stepped b s' m' c') it.
Proof.
  intros HN Hr Hs Hm Hk.
  unfold sample_point, calc_loc, stepped. cbn.
  now rewrite HN, Hr, Hs, Hm, Hk.
Qed.

(** X1: the list [points] of the object returned holds exactly the marker
    artists drawn on the axes, in drawing order. *)
Theorem points_are_drawn_markers (td : TaylorDiagram num) :
  result built = Return td ->
  points td = plotted_points (drawn built).
Proof.
  intros Hres.
  destruct (init_shape ax ref0 samples0 Normalize0 markers0 colors0 scale0 ms0
              pkwargs0)
    as (stdmax0 & marker0 & color0 & _ & _ & _ & _ & Hpp & Hnil & Hne).
  destruct (plotted self0) as [|it its] eqn:Hp.
  - rewrite Hnil in Hres by reflexivity. discriminate.
  - destruct Hne as (td' & xmax & Hres' & Hpts & _); [discriminate|].
    rewrite Hres' in Hres. injection Hres as <-.
    now rewrite Hpts, Hpp.
Qed.

(** X2: every marker drawn, the reference included, has the marker size
    [ms], the transparency 0.5, no connecting line, and carries the extra
    keyword arguments unchanged ([{}] when none or an empty dictionary was
    given). *)
Theorem markers_share_style :
  Forall (fun p => markersize p = ms0 /\ alpha p = lit (5 # 10) /\
                   linestyle p = "" /\ extra p = truthy_or pkwargs0 [])
         (plotted_points (drawn built)).
Proof.
  destruct (init_shape ax ref0 samples0 Normalize0 markers0 colors0 scale0 ms0
              pkwargs0)
    as (stdmax0 & marker0 & color0 & _ & _ & _ & _ & Hpp & _).
  rewrite Hpp. constructor.
  - repeat split.
  - apply Forall_map, Forall_forall. intros it _. repeat split.
Qed.

(** X4: neither the scale nor the position of the axes moves a point: the
    markers drawn are the same for any other scale and position. *)
Theorem scale_never_moves_points (ax' : num * num * num * num) (scale' : num) :
  plotted_points
    (drawn (__init__ ax' ref0 samples0 Normalize0 markers0 colors0 scale' ms0
              pkwargs0)) =
  plotted_points (drawn built).
Proof.
  destruct (init_shape ax ref0 samples0 Normalize0 markers0 colors0 scale0 ms0
              pkwargs0)
    as (s1 & m1 & c1 & Hm1 & Hc1 & _ & _ & Hpp1 & _).
  destruct (init_shape ax' ref0 samples0 Normalize0 markers0 colors0 scale' ms0
              pkwargs0)
    as (s2 & m2 & c2 & Hm2 & Hc2 & _ & _ & Hpp2 & _).
  rewrite Hpp1, Hpp2.
  rewrite Hm1 in Hm2. injection Hm2 as <-.
  rewrite Hc1 in Hc2. injection Hc2 as <-.
  f_equal; apply map_ext; intros it; now apply sample_point_reads.
Qed.

(** X5: normalising leaves every angle, label, marker and colour as it is
    and divides every sample radius by [std(ref)]; the reference radius
    becomes the literal 1. *)
Theorem normalisation_rescales_radii :
  exists p0 q0 ps qs,
    plotted_points
      (drawn (__init__ ax ref0 samples0 true markers0 colors0 scale0 ms0
                pkwargs0)) = p0 :: ps /\
    plotted_points
      (drawn (__init__ ax ref0 samples0 false markers0 colors0 scale0 ms0
                pkwargs0)) = q0 :: qs /\
    ydata p0 = lit 1 /\
    ydata q0 = std (values ref0) /\
    map (@ydata num) ps =
      map (fun q => div (ydata q) (std (values ref0))) qs /\
    map (@xdata num) (p0 :: ps) = map (@xdata num) (q0 :: qs) /\
    map (@label num) (p0 :: ps) = map (@label num) (q0 :: qs) /\
    map (@marker num) (p0 :: ps) = map (@marker num) (q0 :: qs) /\
    map (@color num) (p0 :: ps) = map (@color num) (q0 :: qs).
Proof.
  destruct (init_shape ax ref0 samples0 true markers0 colors0 scale0 ms0
              pkwargs0)
    as (s1 & m1 & c1 & Hm1 & Hc1 & _ & _ & Hpp1 & _).
  destruct (init_shape ax ref0 samples0 false markers0 colors0 scale0 ms0
              pkwargs0)
    as (s2 & m2 & c2 & Hm2 & Hc2 & _ & _ & Hpp2 & _).
  rewrite Hm1 in Hm2. injection Hm2 as <-.
  rewrite Hc1 in Hc2. injection Hc2 as <-.
  eexists _, _, _, _. split; [exact Hpp1|]. split; [exact Hpp2|].
  split; [reflexivity|]. split; [reflexivity|].
  change (plotted (init_attrs ref0 samples0 false markers0 colors0 scale0 ms0
                     pkwargs0))
    with (plotted (init_attrs ref0 samples0 true markers0 colors0 scale0 ms0
                     pkwargs0)).
  cbn [map]. rewrite !map_map.
  split; [apply map_ext; intros it; reflexivity|].
  repeat split; f_equal; apply map_ext; intros it; reflexivity.
Qed.

End Marker_properties.

(** ** Statistics of an affine image of a series *)

Section Affine_statistics.

Local Open Scope R_scope.

Variables c d : R.

Local Abbreviation affine := (fun x : R => c * x + d).

Lemma Rsum_scal (f : R -> R) (k : R) (l : list R) :
  Rsum (map (fun x => k * f x) l) = k * Rsum (map f l).
Proof.
  unfold Rsum. induction l as [|x l IH]; cbn; [ring|]. rewrite IH. ring.
Qed.

Lemma Rsum_affine (l : list R) :
  Rsum (map affine l) = c * Rsum l + d * INR (length l).
Proof.
  unfold Rsum. induction l as [|x l IH]; [cbn; ring|].
  cbn [map fold_right length]. rewrite IH, S_INR. ring.
Qed.

Lemma mean_affine (l : list R) :
  l <> [] -> mean (map affine l) = c * mean l + d.
Proof.
  intros Hne. unfold mean. rewrite Rsum_affine, length_map.
  field. apply not_0_INR. destruct l; [congruence | discriminate].
Qed.

Lemma sq_dev_affine (l : list R) :
  l <> [] -> sq_dev (map affine l) = c ^ 2 * sq_dev l.
Proof.
  intros Hne. unfold sq_dev. rewrite mean_affine by assumption.
  rewrite map_map, <- Rsum_scal. f_equal. apply map_ext. intros x. ring.
Qed.

Lemma sq_dev_pos_length (l : list R) : 0 < sq_dev l -> (2 <= length l)%nat.
Proof.
  destruct l as [|x [|y l]]; cbn [length]; try lia.
  - unfold sq_dev, Rsum. cbn. lra.
  - unfold sq_dev, mean, Rsum. cbn [map fold_right length INR].
    replace (x - (x + 0) / 1) with 0 by field. intros Hpos. exfalso.
    revert Hpos. cbn. lra.
Qed.

Lemma std_nonneg (l : list R) : 0 <= Series_std l.
Proof. apply sqrt_pos. Qed.

Lemma sqrt_pow2_scal (k x : R) : sqrt (k ^ 2 * x) = Rabs k * sqrt x.
Proof.
  rewrite sqrt_mult_alt by apply pow2_ge_0.
  now rewrite <- Rsqr_pow2, sqrt_Rsqr_abs.
Qed.

Lemma combine_map_fst {A B : Type} (f : A -> B) (l : list A) :
  map fst (combine l (map f l)) = l.
Proof. induction l as [|x l IH]; cbn; now rewrite ?IH. Qed.

Lemma combine_map_snd {A B : Type} (f : A -> B) (l : list A) :
  map snd (combine l (map f l)) = map f l.
Proof. induction l as [|x l IH]; cbn; now rewrite ?IH. Qed.

Lemma map_combine_map {A B C : Type} (f : A -> B) (g : A * B -> C) (l : list A) :
  map g (combine l (map f l)) = map (fun x => g (x, f x)) l.
Proof. induction l as [|x l IH]; cbn; now rewrite ?IH. Qed.

(** The Pearson correlation of a series with its image under
    [x |-> c x + d] is the sign of [c]. *)
Lemma corr_affine (l : list R) :
  0 < sq_dev l -> c <> 0 -> Series_corr l (map affine l) = c / Rabs c.
Proof.
  intros Hpos Hc.
  assert (Hne : l <> []).
  { apply sq_dev_pos_length in Hpos. destruct l; [cbn in Hpos; lia | discriminate]. }
  unfold Series_corr. cbv zeta.
  rewrite combine_map_fst, combine_map_snd, map_combine_map.
  cbn [fst snd]. rewrite mean_affine, sq_dev_affine by assumption.
  assert (Hnum :
    Rsum (map (fun x => (x - mean l) * (c * x + d - (c * mean l + d))) l) =
      c * sq_dev l).
  { unfold sq_dev. rewrite <- Rsum_scal. f_equal. apply map_ext. intros x. ring. }
  rewrite Hnum, sqrt_pow2_scal.
  replace (sqrt (sq_dev l) * (Rabs c * sqrt (sq_dev l)))
    with (Rabs c * (sqrt (sq_dev l) * sqrt (sq_dev l))) by ring.
  rewrite sqrt_def by lra.
  field. split; first [lra | now apply Rabs_no_R0].
Qed.

End Affine_statistics.

Lemma max_of_In (r : R) (l : list R) : max_of r l = r \/ In (max_of r l) l.
Proof.
  induction l as [|y l IH]; [now left|].
  change (max_of r (y :: l)) with (Rmax y (max_of r l)).
  unfold Rmax. destruct (Rle_dec y (max_of r l)).
  - destruct IH as [E|Hin]; [now left | right; now right].
  - right. now left.
Qed.

(** Python's [max] over the reals returns an entry of the list that no
    entry exceeds. *)
Lemma py_max_R_spec (l : list R) (m : R) :
  py_max l = Some m -> In m l /\ Forall (fun x => (x <= m)%R) l.
Proof.
  destruct l as [|x xs]; [discriminate|].
  cbn [py_max]. rewrite fold_left_Rmax, fold_left_max_of.
  intros E. injection E as <-. split.
  - destruct (max_of_In x xs) as [->|Hin]; [now left | now right].
  - constructor; [apply max_of_ge_init|].
    apply Forall_forall. intros y Hy. now apply max_of_ge_In.
Qed.

(** ** Further properties of the constructed diagram over the reals *)

Section Real_frame_properties.

Local Open Scope string_scope.
Local Open Scope list_scope.
Local Open Scope R_scope.

Variables (ax : R * R * R * R) (ref0 : Series R) (samples0 : DataFrame R)
  (Normalize0 : bool) (markers0 colors0 : option (list string)) (scale0 : R)
  (ms0 : Z) (pkwargs0 : option kwargs).

Local Abbreviation built :=
  (__init__ ax ref0 samples0 Normalize0 markers0 colors0 scale0 ms0 pkwargs0).
Local Abbreviation self0 :=
  (init_attrs ref0 samples0 Normalize0 markers0 colors0 scale0 ms0 pkwargs0).

(** The sample marker drawn in position [i]: its column and coordinates. *)
Lemma sample_marker_at (i : nat) (p : Line2D R) :
  nth_error (plotted_points (drawn built)) (S i) = Some p ->
  nth_error (columns samples0) i = Some (label p) /\
  In (label p) (columns samples0) /\
  xdata p = acos (Series_corr (values ref0) (values (getitem samples0 (label p)))) /\
  ydata p = (if Normalize0
             then Series_std (values (getitem samples0 (label p)))
                  / Series_std (values ref0)
             else Series_std (values (getitem samples0 (label p)))).
Proof.
  intros Hp.
  destruct (init_shape ax ref0 samples0 Normalize0 markers0 colors0 scale0 ms0
              pkwargs0)
    as (stdmax0 & marker0 & color0 & _ & _ & _ & _ & Hpp & _).
  rewrite Hpp in Hp. cbn [nth_error] in Hp. rewrite nth_error_map in Hp.
  destruct (nth_error (plotted self0) i) as [[col [m c]]|] eqn:Hit;
    [|discriminate].
  cbn [option_map] in Hp. injection Hp as <-.
  unfold plotted in Hit. rewrite nth_error_zip3 in Hit.
  cbn [samples init_attrs] in Hit.
  destruct (nth_error (columns samples0) i) as [col'|] eqn:Hcol; [|discriminate].
  destruct (nth_error (slice_from_1 (markers _)) i); [|discriminate].
  destruct (nth_error (slice_from_1 (colors _)) i); [|discriminate].
  injection Hit as -> _ _.
  cbn [sample_point label fst].
  split; [reflexivity|]. split; [eapply nth_error_In; exact Hcol|].
  split; reflexivity.
Qed.

Lemma frame_ops_no_xlim (self : Attrs R) (s x : R) :
  ~ In (SetXlim x) (frame_ops self ax s).
Proof.
  unfold frame_ops, axis_settings, contour_of, meshgrid. cbn [app In].
  intros Hin. repeat (destruct Hin as [Hin|Hin]; [discriminate Hin|]).
  exact Hin.
Qed.

(** X6: when the constructor returns, [set_xlim] is the last drawing call
    and the only one of its kind, and its [xmax] is the greatest radius
    among the sample markers drawn (the reference radius does not count). *)
Theorem xlim_is_greatest_sample_radius (td : TaylorDiagram R) :
  result built = Return td ->
  exists ops xmax,
    drawn built = ops ++ [SetXlim xmax] /\
    (forall x, ~ In (SetXlim x) ops) /\
    In xmax (map (@ydata R) (tl (points td))) /\
    Forall (fun p => ydata p <= xmax) (tl (points td)).
Proof.
  intros Hres.
  destruct (init_shape ax ref0 samples0 Normalize0 markers0 colors0 scale0 ms0
              pkwargs0)
    as (stdmax0 & marker0 & color0 & _ & _ & _ & _ & _ & Hnil & Hne).
  destruct (plotted self0) as [|it its] eqn:Hp.
  - rewrite Hnil in Hres by reflexivity. discriminate.
  - destruct Hne as (td' & xmax & Hres' & Hpts & _ & Hmax & Hdr);
      [discriminate|].
    rewrite Hres' in Hres. injection Hres as <-.
    apply py_max_R_spec in Hmax. destruct Hmax as (Hin & Hall).
    eexists _, xmax. split.
    + rewrite Hdr, !app_assoc. reflexivity.
    + rewrite Hpts. cbn [tl]. split; [|split].
      * intros x Hx. apply in_app_or in Hx. destruct Hx as [Hx|Hx].
        -- apply in_app_or in Hx. destruct Hx as [Hx|[Hx|[]]];
             [now apply frame_ops_no_xlim in Hx | discriminate Hx].
        -- apply in_map_iff in Hx. destruct Hx as (q & Hq & _). discriminate.
      * exact Hin.
      * now apply Forall_map in Hall.
Qed.

(** X7: the reference arc is drawn, dashed, through 50 nodes at the angles
    [i * ((pi / 2) / 49)], all at the reference radius. *)
Theorem reference_arc :
  exists t r,
    In (PlotCurve t r "k--") (drawn built) /\
    t = map (fun i => INR i * (PI / 2 / INR 49)) (seq 0 50) /\
    r = map (fun _ => refstd_R Normalize0 ref0) (seq 0 50).
Proof.
  destruct (real_frame ax ref0 samples0 Normalize0 markers0 colors0 scale0 ms0
              pkwargs0)
    as (marker0 & color0 & rest & Hdr & _ & _).
  eexists _, _. split; [|split].
  - rewrite Hdr. apply in_or_app. left. unfold frame_ops.
    apply in_or_app. right. apply in_or_app. right.
    right. left. reflexivity.
  - rewrite linspace_R by lia. cbn [div np_pi R_numeric].
    now rewrite lit_2.
  - rewrite linspace_R by lia. rewrite map_map. apply map_ext. intros i.
    cbn [add R_numeric ref Normalize init_attrs]. rewrite lit_0.
    unfold refstd_R. change (@std R R_numeric) with Series_std.
    destruct Normalize0; [rewrite lit_1|]; ring.
Qed.

(** X8: under normalisation the contour levels are given explicitly and are
    the four radial tick positions; otherwise only their number, 4, is
    given. *)
Theorem contour_levels_follow_ticks :
  exists ts rs rms levels gh,
    In (Contour ts rs rms levels) (drawn built) /\
    find_grid (drawn built) = Some gh /\
    levels = (if Normalize0 then LevelValues (grid_locator2 gh)
              else LevelCount 4).
Proof.
  destruct (real_frame ax ref0 samples0 Normalize0 markers0 colors0 scale0 ms0
              pkwargs0)
    as (marker0 & color0 & rest & Hdr & Hgrid & _).
  eexists _, _, _, _, _. split; [|split; [exact Hgrid|]].
  - rewrite Hdr. apply in_or_app. left. unfold frame_ops.
    apply in_or_app. right. apply in_or_app. right.
    right. right. left. unfold contour_of, meshgrid. reflexivity.
  - cbn [Normalize scale init_attrs grid_of grid_locator2].
    destruct Normalize0; [|reflexivity].
    f_equal. f_equal. cbn [mul R_numeric]. rewrite lit_1. ring.
Qed.

End Real_frame_properties.

(** ** Dictionaries with distinct keys; the frame under normalisation *)

Section Distinct_keys.

Context {num : Type} `{Numeric num}.

Local Open Scope string_scope.
Local Open Scope list_scope.

Lemma dict_set_fresh {V : Type} (d : pydict num V) (k : num) (v : V) :
  ~ In k (map fst d) -> dict_set d k v = d ++ [(k, v)].
Proof.
  induction d as [|[k0 v0] d IH]; intros Hn; cbn; [reflexivity|].
  destruct (num_eq_dec k0 k) as [E|E].
  - exfalso. apply Hn. now left.
  - rewrite IH; [reflexivity|]. intros Hin. apply Hn. now right.
Qed.

Lemma dict_fold_distinct {V : Type} (ps : list (num * V)) :
  forall d : pydict num V,
    NoDup (map fst d ++ map fst ps) ->
    fold_left (fun d kv => dict_set d (fst kv) (snd kv)) ps d = d ++ ps.
Proof.
  induction ps as [|[k v] ps IH]; intros d Hnd; cbn [fold_left fst snd].
  - now rewrite app_nil_r.
  - cbn [map fst] in Hnd.
    rewrite dict_set_fresh.
    + rewrite IH; [now rewrite <- app_assoc|].
      rewrite map_app. cbn [map fst]. now rewrite <- app_assoc.
    + apply NoDup_remove_2 in Hnd. intros Hin. apply Hnd.
      apply in_or_app. now left.
Qed.

(** [dict(pairs)] keeps pairs with distinct keys as they are, in order. *)
Lemma dict_of_distinct {V : Type} (ps : list (num * V)) :
  NoDup (map fst ps) -> dict_of ps = ps.
Proof.
  intros Hnd. unfold dict_of. now rewrite dict_fold_distinct.
Qed.

Lemma combine_maps {A B C : Type} (f : A -> B) (g : A -> C) (l : list A) :
  combine (map f l) (map g l) = map (fun x => (f x, g x)) l.
Proof. induction l as [|x l IH]; cbn; now rewrite ?IH. Qed.

(** X11: under normalisation everything drawn before the markers (the
    frame with its ticks, the reference arc, the contours) is fixed by the
    scale and the position of the axes; the data, the palettes and the
    marker style do not enter. *)
Theorem normalised_frame_ignores_data
  (ax : num * num * num * num) (scale0 : num)
  (ref1 ref2 : Series num) (samples1 samples2 : DataFrame num)
  (markers1 markers2 colors1 colors2 : option (list string)) (ms1 ms2 : Z)
  (pkwargs1 pkwargs2 : option kwargs) :
  exists ops p1 rest1 p2 rest2,
    drawn (__init__ ax ref1 samples1 true markers1 colors1 scale0 ms1 pkwargs1)
      = ops ++ PlotPoint p1 :: rest1 /\
    drawn (__init__ ax ref2 samples2 true markers2 colors2 scale0 ms2 pkwargs2)
      = ops ++ PlotPoint p2 :: rest2 /\
    plotted_points ops = [] /\
    length ops = 20%nat.
Proof.
  destruct (init_shape ax ref1 samples1 true markers1 colors1 scale0 ms1
              pkwargs1)
    as (s1 & m1 & c1 & _ & _ & _ & (rest1 & Hdr1) & _).
  destruct (init_shape ax ref2 samples2 true markers2 colors2 scale0 ms2
              pkwargs2)
    as (s2 & m2 & c2 & _ & _ & _ & (rest2 & Hdr2) & _).
  eexists _, _, rest1, _, rest2. split; [exact Hdr1|].
  split; [exact Hdr2|]. split; reflexivity.
Qed.

End Distinct_keys.

(** ** Ticks, radial and angular extent, over the reals *)

Section Real_extent_properties.

Local Open Scope string_scope.
Local Open Scope list_scope.
Local Open Scope R_scope.

Variables (ax : R * R * R * R) (ref0 : Series R) (samples0 : DataFrame R)
  (Normalize0 : bool) (markers0 colors0 : option (list string)) (scale0 : R)
  (ms0 : Z) (pkwargs0 : option kwargs).

Local Abbreviation built :=
  (__init__ ax ref0 samples0 Normalize0 markers0 colors0 scale0 ms0 pkwargs0).
Local Abbreviation self0 :=
  (init_attrs ref0 samples0 Normalize0 markers0 colors0 scale0 ms0 pkwargs0).

Lemma levels_distinct : NoDup correlation_levels.
Proof.
  unfold correlation_levels.
  repeat (constructor;
          [cbn [In]; intros Hin;
           repeat (destruct Hin as [Hin|Hin]; [lra|]); exact Hin|]).
  constructor.
Qed.

Lemma acos_levels_distinct : NoDup (map acos correlation_levels).
Proof.
  apply NoDup_map_NoDup_ForallPairs; [|apply levels_distinct].
  intros x y Hx Hy E.
  apply levels_in_range in Hx, Hy.
  now rewrite <- (cos_acos x), E, cos_acos.
Qed.

(** X12: the dictionary of the angular tick formatter has exactly ten
    entries, one per correlation level and in the order of the levels: no
    two levels share a tick angle. *)
Theorem angular_formatter_entries :
  exists gh,
    find_grid (drawn built) = Some gh /\
    tick_formatter1 gh = map (fun c => (acos c, PyStr c)) correlation_levels /\
    length (tick_formatter1 gh) = 10%nat.
Proof.
  destruct (real_frame ax ref0 samples0 Normalize0 markers0 colors0 scale0 ms0
              pkwargs0)
    as (marker0 & color0 & rest & _ & Hgrid & _).
  eexists. split; [exact Hgrid|].
  unfold grid_of. cbn [tick_formatter1].
  change (@np_arccos R R_numeric) with acos. rewrite Rlocs_levels.
  assert (E : dict_of (combine (map acos correlation_levels)
                               (map (@PyStr R) correlation_levels)) =
              map (fun c => (acos c, PyStr c)) correlation_levels).
  { rewrite combine_maps. apply dict_of_distinct.
    rewrite map_map. cbn [fst]. apply acos_levels_distinct. }
  rewrite E. split; reflexivity.
Qed.

(** X13: with a radial bound other than 0 the four radial ticks are distinct
    and the formatter dictionary has one entry per tick; with the bound 0
    (a zero scale, or constant series without normalisation) the four ticks
    coincide at 0 and the dictionary keeps a single entry. *)
Theorem radial_formatter_entries :
  exists gh,
    find_grid (drawn built) = Some gh /\
    (radius_max gh <> 0 ->
       NoDup (grid_locator2 gh) /\
       tick_formatter2 gh =
         map (fun s => (s, PyFormat "%.1f" s)) (grid_locator2 gh)) /\
    (radius_max gh = 0 ->
       grid_locator2 gh = [0; 0; 0; 0] /\
       tick_formatter2 gh = [(0, PyFormat "%.1f" 0)]).
Proof.
  destruct (real_frame ax ref0 samples0 Normalize0 markers0 colors0 scale0 ms0
              pkwargs0)
    as (marker0 & color0 & rest & _ & Hgrid & _).
  eexists. split; [exact Hgrid|].
  unfold grid_of, radius_max.
  cbn [grid_locator2 tick_formatter2 extremes snd].
  set (S := mul (if Normalize0 then lit 1%Q else stdmax_R ref0 samples0) scale0).
  assert (Hticks : linspace (lit 0%Q) S 4 = [0; S / 3; 2 * (S / 3); S]).
  { rewrite linspace_R by lia. cbn [seq map Nat.sub INR].
    repeat (apply f_equal2; [field|]). reflexivity. }
  rewrite Hticks. split.
  - intros HS.
    assert (Hnd : NoDup [0; S / 3; 2 * (S / 3); S]).
    { repeat (constructor;
              [cbn [In]; intros Hin;
               repeat (destruct Hin as [Hin|Hin]; [lra|]); exact Hin|]).
      constructor. }
    split; [exact Hnd|].
    rewrite <- (map_id [0; S / 3; 2 * (S / 3); S]) at 1.
    rewrite combine_maps. apply dict_of_distinct.
    rewrite map_map. cbn [fst]. now rewrite map_id.
  - intros HS. rewrite HS.
    replace (0 / 3) with 0 by field. replace (2 * 0) with 0 by ring.
    split; [reflexivity|].
    unfold dict_of. cbn [combine map fold_left fst snd].
    assert (Hset : dict_set [(0, PyFormat "%.1f" 0)] 0 (PyFormat "%.1f" 0) =
                   [(0, PyFormat "%.1f" 0)]).
    { cbn [dict_set num_eq_dec R_numeric].
      destruct (Req_dec_T 0 0); [reflexivity | congruence]. }
    change (dict_set [] 0 (PyFormat "%.1f" 0)) with [(0, PyFormat "%.1f" 0)].
    now rewrite !Hset.
Qed.

(** X14: without normalisation and with a scale of at least 1, every marker
    drawn, the reference included, has its radius inside the radial domain
    [0, radius_max] of the frame. *)
Theorem points_within_radial_domain :
  Normalize0 = false ->
  1 <= scale0 ->
  exists gh,
    find_grid (drawn built) = Some gh /\
    Forall (fun p => 0 <= ydata p <= radius_max gh)
           (plotted_points (drawn built)).
Proof.
  intros HN Hs.
  destruct (real_frame ax ref0 samples0 Normalize0 markers0 colors0 scale0 ms0
              pkwargs0)
    as (marker0' & color0' & rest & _ & Hgrid & _).
  destruct (init_shape ax ref0 samples0 Normalize0 markers0 colors0 scale0 ms0
              pkwargs0)
    as (stdmax0 & marker0 & color0 & _ & _ & _ & _ & Hpp & _).
  eexists. split; [exact Hgrid|].
  unfold radius_max, grid_of. cbn [extremes snd mul R_numeric].
  rewrite Hpp, HN.
  assert (Hin : forall x, 0 <= x -> x <= stdmax_R ref0 samples0 ->
                          0 <= x <= stdmax_R ref0 samples0 * scale0).
  { intros x H0 Hx. split; [exact H0|]. nra. }
  constructor.
  - cbn [ref_point ydata Normalize init_attrs ref].
    apply Hin; [apply std_nonneg | apply max_of_ge_init].
  - apply Forall_map, Forall_forall. intros [col [m c]] Hit.
    cbn [sample_point ydata calc_loc snd fst stepped attrs extend_points
         Normalize samples init_attrs].
    apply Hin; [apply std_nonneg|].
    apply max_of_ge_In. unfold sample_stds.
    apply (in_map (fun c => Series_std (values (getitem samples0 c)))).
    unfold plotted, zip3 in Hit. apply in_combine_l in Hit. exact Hit.
Qed.

(** X15: under normalisation a sample whose standard deviation exceeds
    [scale * std(ref)] is drawn beyond the radial bound of the frame. *)
Theorem normalised_sample_beyond_bound (i : nat) (p : Line2D R) :
  Normalize0 = true ->
  0 < Series_std (values ref0) ->
  nth_error (plotted_points (drawn built)) (S i) = Some p ->
  scale0 * Series_std (values ref0)
    < Series_std (values (getitem samples0 (label p))) ->
  exists gh,
    find_grid (drawn built) = Some gh /\ radius_max gh < ydata p.
Proof.
  intros HN Href Hp Hbig.
  destruct (real_frame ax ref0 samples0 Normalize0 markers0 colors0 scale0 ms0
              pkwargs0)
    as (marker0 & color0 & rest & _ & Hgrid & _).
  destruct (sample_marker_at ax ref0 samples0 Normalize0 markers0 colors0
              scale0 ms0 pkwargs0 i Hp) as (_ & _ & _ & Hy).
  eexists. split; [exact Hgrid|].
  unfold radius_max, grid_of. cbn [extremes snd mul R_numeric].
  rewrite Hy, HN, lit_1, Rmult_1_l.
  apply Rmult_lt_reg_r with (r := Series_std (values ref0)); [exact Href|].
  unfold Rdiv. rewrite Rmult_assoc, Rinv_l by lra. lra.
Qed.

(** X18: a sample whose correlation with the reference lies in [0, 1] is
    drawn inside the angular domain [0, pi / 2] of the frame; one whose
    correlation lies in [-1, 0) is drawn beyond it. *)
Theorem quarter_disk_criterion (i : nat) (p : Line2D R) :
  nth_error (plotted_points (drawn built)) (S i) = Some p ->
  let c := Series_corr (values ref0) (values (getitem samples0 (label p))) in
  (0 <= c <= 1 -> 0 <= xdata p <= PI / 2) /\
  (-1 <= c < 0 -> PI / 2 < xdata p <= PI).
Proof.
  intros Hp c.
  destruct (sample_marker_at ax ref0 samples0 Normalize0 markers0 colors0
              scale0 ms0 pkwargs0 i Hp) as (_ & _ & Hx & _).
  fold c in Hx. rewrite Hx.
  pose proof (acos_bound c) as [Hlo Hhi].
  pose proof PI_RGT_0 as Hpi.
  split; intros Hc.
  - split; [exact Hlo|].
    destruct (Rle_dec (acos c) (PI / 2)) as [Hle|Hgt]; [exact Hle|].
    exfalso.
    assert (Hneg : cos (acos c) < 0) by (apply cos_lt_0; lra).
    rewrite cos_acos in Hneg by lra. lra.
  - split; [|exact Hhi].
    destruct (Rlt_dec (PI / 2) (acos c)) as [Hlt|Hnlt]; [exact Hlt|].
    exfalso.
    destruct (Req_dec_T (acos c) (PI / 2)) as [E|E].
    + assert (Hz : cos (acos c) = 0) by (rewrite E; apply cos_PI2).
      rewrite cos_acos in Hz by lra. lra.
    + assert (Hposc : 0 < cos (acos c)) by (apply cos_gt_0; lra).
      rewrite cos_acos in Hposc by lra. lra.
Qed.

End Real_extent_properties.

(** ** Instances of the properties above *)

Lemma model_a_doubles_obs :
  values model_a = map (fun x => 2 * x + 0)%R (values obs).
Proof.
  cbn [model_a obs values map].
  repeat (apply f_equal2; [lra|]). reflexivity.
Qed.

Lemma sq_dev_obs : (0 < sq_dev (values obs))%R.
Proof.
  unfold sq_dev, mean, Rsum. cbn [obs values map fold_right length INR].
  match goal with |- (0 < ?e)%R => replace e with 2%R by field end. lra.
Qed.

(** X14, an instance: reference [obs], sample [a], scale 1.2. *)
Lemma points_within_radial_domain_witness :
  exists gh,
    find_grid (drawn (__init__ ax_bounds obs (frame_of [model_a]) false None
                        None default_scale default_ms None)) = Some gh /\
    Forall (fun p => (0 <= ydata p <= radius_max gh)%R)
      (plotted_points
         (drawn (__init__ ax_bounds obs (frame_of [model_a]) false None None
                   default_scale default_ms None))).
Proof.
  apply (points_within_radial_domain ax_bounds obs (frame_of [model_a])
           (Normalize0 := false) None None (scale0 := default_scale)
           default_ms None).
  - reflexivity.
  - unfold default_scale. cbn [lit R_numeric]. unfold Q2R. cbn. lra.
Defined.

(** X15, an instance: under normalisation the sample [a], of standard
    deviation 2 against 1, lies beyond the bound 1.2. *)
Lemma normalised_sample_beyond_bound_witness :
  exists p gh,
    nth_error
      (plotted_points
         (drawn (__init__ ax_bounds obs (frame_of [model_a]) true None None
                   default_scale default_ms None))) 1 = Some p /\
    find_grid (drawn (__init__ ax_bounds obs (frame_of [model_a]) true None
                        None default_scale default_ms None)) = Some gh /\
    (radius_max gh < ydata p)%R.
Proof.
  eexists.
  edestruct (normalised_sample_beyond_bound ax_bounds obs (frame_of [model_a])
               (Normalize0 := true) None None (scale0 := default_scale)
               default_ms None 0)
    as (gh & Hg & Hlt).
  - reflexivity.
  - rewrite std_obs. lra.
  - reflexivity.
  - change (getitem (frame_of [model_a]) _) with model_a.
    rewrite std_obs, std_model_a.
    unfold default_scale. cbn [lit R_numeric]. unfold Q2R. cbn. lra.
  - exists gh. split; [reflexivity|]. split; [exact Hg | exact Hlt].
Defined.

(** X18, an instance: the sample [a] correlates to 1 with [obs]. *)
Lemma quarter_disk_criterion_witness :
  exists p,
    nth_error
      (plotted_points
         (drawn (__init__ ax_bounds obs (frame_of [model_a]) false None None
                   default_scale default_ms None))) 1 = Some p /\
    (0 <= xdata p <= PI / 2)%R.
Proof.
  eexists.
  edestruct (quarter_disk_criterion ax_bounds obs (frame_of [model_a]) false
               None None default_scale default_ms None 0)
    as (Hin & _).
  - reflexivity.
  - split; [reflexivity|]. apply Hin.
    change (getitem (frame_of [model_a]) _) with model_a.
    rewrite model_a_doubles_obs, corr_affine by (apply sq_dev_obs || lra).
    rewrite Rabs_right by lra. lra.
Defined.

(** X1, an instance: three samples under the default palettes. *)
Lemma points_are_drawn_markers_witness :
  exists td,
    result (__init__ ax_bounds obs (frame_of [model_a; model_c; model_d]) false
              None None default_scale default_ms None) = Return td /\
    points td =
      plotted_points
        (drawn (__init__ ax_bounds obs (frame_of [model_a; model_c; model_d])
                  false None None default_scale default_ms None)).
Proof.
  destruct (init_returns ax_bounds obs (frame_of [model_a; model_c; model_d])
              false None None default_scale default_ms None) as (td & Hres).
  { discriminate. }
  exists td. split; [exact Hres|].
  exact (points_are_drawn_markers ax_bounds obs
           (frame_of [model_a; model_c; model_d]) false None None
           default_scale default_ms None Hres).
Defined.

(** X6, an instance: three samples under the default palettes. *)
Lemma xlim_is_greatest_sample_radius_witness :
  exists td ops xmax,
    result (__init__ ax_bounds obs (frame_of [model_a; model_c; model_d]) false
              None None default_scale default_ms None) = Return td /\
    drawn (__init__ ax_bounds obs (frame_of [model_a; model_c; model_d]) false
             None None default_scale default_ms None) = ops ++ [SetXlim xmax] /\
    Forall (fun p => (ydata p <= xmax)%R) (tl (points td)).
Proof.
  destruct (init_returns ax_bounds obs (frame_of [model_a; model_c; model_d])
              false None None default_scale default_ms None) as (td & Hres).
  { discriminate. }
  destruct (xlim_is_greatest_sample_radius ax_bounds obs
              (frame_of [model_a; model_c; model_d]) false None None
              default_scale default_ms None Hres)
    as (ops & xmax & Hdr & _ & _ & Hall).
  exists td, ops, xmax. split; [exact Hres|]. split; [exact Hdr | exact Hall].
Defined.
